(** * Underwriting calculation engine of AgenticLoanOrigination

    A shallow embedding of the deterministic tools of
    [src/tools/application_tools.py] and [src/tools/underwriting_tools.py]
    together with the policy parameters of [src/config/settings.py].

    Conventions of the embedding.
    - A Python [int] is a [Z].
    - A Python [float] is read as the rational number it stands for: values
      are [Q], arithmetic is exact, and comparisons are the order of [Q].
      Infinities, NaN and the binary rounding of each operation are outside
      this model; two rationals are compared with [==]. The statements
      below are therefore about signs, orders, thresholds and the exceptions
      raised, which the rounding of a float operation keeps, and not about
      the last digits of a computed amount.
    - A call that can raise returns a [result]; [/] and [**] raise
      [ZeroDivisionError] where Python does, on a divisor of 0 and on 0
      raised to a negative power, and [**] and the conversion of an int to
      a float raise [OverflowError] beyond the range of a float.
    - The module constants of [settings.py] are a record [Settings], which
      the tools that read them take as an argument.
    - Each tool's [_run] builds a dictionary and serialises it with
      [json.dumps]; the embedding stops at the dictionary, a record. *)

From Stdlib Require Import ZArith QArith Qround Qabs Qpower Qminmax Qfield Lia Lqa Ascii String.
From stdpp Require Import base option gmap strings pretty.

Local Open Scope string_scope.
Local Open Scope Z_scope.

(** ** Python values and builtins *)

Module Py.

(** The exceptions the embedded code can raise. The repository defines no
    exception class of its own. *)
Inductive exn : Type :=
| ZeroDivisionError
| ValueError
| OverflowError
| OSError.

Inductive result (A : Type) : Type :=
| Ok (a : A)
| Raise (e : exn).
Arguments Ok {A} a.
Arguments Raise {A} e.

#[global] Instance result_ret : MRet result := fun A a => Ok a.
#[global] Instance result_bind : MBind result := fun A B f m =>
  match m with
  | Ok a => f a
  | Raise e => Raise e
  end.

(** Comparisons of two numbers, as booleans. *)
Definition le (x y : Q) : bool := Qle_bool x y.
Definition lt (x y : Q) : bool := negb (Qle_bool y x).
Definition ge (x y : Q) : bool := le y x.
Definition gt (x y : Q) : bool := lt y x.

(** [x / y] *)
Definition truediv (x y : Q) : result Q :=
  if Qeq_bool y 0 then Raise ZeroDivisionError else Ok (x / y)%Q.

(** The range of a float. A magnitude of [overflow_bound] or more, half a
    step above the largest float, rounds to infinity; one of
    [underflow_bound] or less, half the smallest float, rounds to zero. *)
Definition overflow_bound : Q := inject_Z (2 ^ 1024 - 2 ^ 970).
Definition underflow_bound : Q := 1 # (2 ^ 1075).

(** An int where a float is expected, as in [x * n] and [x / n]. *)
Definition float_of_int (n : Z) : result Q :=
  if Qle_bool overflow_bound (inject_Z (Z.abs n)) then Raise OverflowError
  else Ok (inject_Z n).

(** [x ** n] for a float [x] and an int [n]: the exponent is converted
    first, anything to the power 0 is 1, zero has no negative power, a
    result beyond the range raises and one that underflows is 0. *)
Definition pow (x : Q) (n : Z) : result Q :=
  _ ← float_of_int n;
  if n =? 0 then Ok 1%Q
  else if Qeq_bool x 0 then
    if n <? 0 then Raise ZeroDivisionError else Ok 0%Q
  else
    let y := (x ^ n)%Q in
    if Qle_bool overflow_bound (Qabs y) then Raise OverflowError
    else if Qle_bool (Qabs y) underflow_bound then Ok 0%Q
    else Ok y.

(** [max(a, b)] keeps [a] unless [b > a]; [min(a, b)] keeps [a] unless
    [b < a]. *)
Definition max (a b : Q) : Q := if gt b a then b else a.
Definition min (a b : Z) : Z := if b <? a then b else a.

(** [round(x, ndigits)] on a float: the nearest multiple of
    [10 ** -ndigits], ties to the even one. *)
Definition round_half_even (y : Q) : Z :=
  let f := Qfloor y in
  match (y - inject_Z f ?= 1 # 2)%Q with
  | Lt => f
  | Gt => f + 1
  | Eq => if Z.even f then f else f + 1
  end.

Definition round (x : Q) (ndigits : Z) : Q :=
  (inject_Z (round_half_even (x * 10 ^ ndigits)) / 10 ^ ndigits)%Q.

(** [round(n, ndigits)] on an int with [ndigits >= 0] is [n] itself. *)
Definition round_int (n : Z) (ndigits : Z) : Z := n.

(** [int(text)] and [float(text)] on ASCII text, after the grammar of the
    two builtins: blanks around the numeral are dropped, a sign may come
    first, digits may be grouped with single underscores, and a float may
    have a point and an exponent. Text that does not fit raises
    [ValueError]. Two kinds of text that [float] does read have no value
    among the rationals and are refused here like unreadable text: the
    spellings of infinity and NaN, and numerals beyond the range of a float;
    digits outside ASCII are not read either, and the limit the interpreter
    may put on the length of an [int] numeral is not modelled. *)
Definition digit (c : ascii) : option Z :=
  let n := Z.of_nat (nat_of_ascii c) - 48 in
  if (0 <=? n) && (n <=? 9) then Some n else None.

Definition is_space (c : ascii) : bool :=
  let n := Z.of_nat (nat_of_ascii c) in
  (9 <=? n) && (n <=? 13) || (28 <=? n) && (n <=? 32).

Fixpoint lstrip (text : string) : string :=
  match text with
  | String c rest => if is_space c then lstrip rest else text
  | EmptyString => EmptyString
  end.

Fixpoint rstrip (text : string) : string :=
  match text with
  | String c rest =>
      match rstrip rest with
      | EmptyString => if is_space c then EmptyString else String c EmptyString
      | rest' => String c rest'
      end
  | EmptyString => EmptyString
  end.

Definition strip (text : string) : string := rstrip (lstrip text).

(** The leading digits of [text], where an underscore may stand between
    two digits: their value after [acc], how many there are, and what
    follows them. *)
Fixpoint digits (text : string) (acc : Z) (count : nat) : Z * nat * string :=
  match text with
  | String c rest =>
      match digit c with
      | Some d => digits rest (10 * acc + d) (S count)
      | None =>
          match c, count, rest with
          | "_"%char, S _, String c' rest' =>
              match digit c' with
              | Some d' => digits rest' (10 * acc + d') (S count)
              | None => (acc, count, text)
              end
          | _, _, _ => (acc, count, text)
          end
      end
  | EmptyString => (acc, count, text)
  end.

Definition signed {A : Type} (neg : A -> A) (unsigned : string -> result A)
    (text : string) : result A :=
  match text with
  | String "-" rest => v ← unsigned rest; mret (neg v)
  | String "+" rest => unsigned rest
  | _ => unsigned text
  end.

Definition unsigned_int (text : string) : result Z :=
  match digits text 0 0 with
  | (v, S _, EmptyString) => Ok v
  | _ => Raise ValueError
  end.

(** What follows the mantissa: nothing, or [e] or [E] and a signed int. *)
Definition exponent (text : string) : result Z :=
  match text with
  | EmptyString => Ok 0
  | String c rest =>
      if (c =? "e")%char || (c =? "E")%char then signed Z.opp unsigned_int rest
      else Raise ValueError
  end.

(** A value read from text, when a float can hold it. *)
Definition in_range (y : Q) : result Q :=
  if Qle_bool overflow_bound (Qabs y) then Raise ValueError
  else if Qle_bool (Qabs y) underflow_bound then Ok 0%Q
  else Ok y.

Definition unsigned_float (text : string) : result Q :=
  let '(v, n, rest) := digits text 0 0 in
  '(mantissa, rest) ←
    match rest with
    | String "." rest' =>
        let '(f, k, rest'') := digits rest' 0 0 in
        if (n + k =? 0)%nat then Raise ValueError
        else Ok ((inject_Z v + inject_Z f / inject_Z (10 ^ Z.of_nat k))%Q, rest'')
    | _ => if (n =? 0)%nat then Raise ValueError else Ok (inject_Z v, rest)
    end;
  e ← exponent rest;
  in_range (mantissa * 10 ^ e)%Q.

Definition int_of_str (text : string) : result Z :=
  signed Z.opp unsigned_int (strip text).
Definition float_of_str (text : string) : result Q :=
  signed Qopp unsigned_float (strip text).

(** [x or d] for an optional float [x]: [None] and [0.0] are falsy. *)
Definition or_ (x : option Q) (d : Q) : Q :=
  match x with
  | Some v => if Qeq_bool v 0 then d else v
  | None => d
  end.

End Py.

Import Py.

Notation "x <=? y" := (Py.le x y) : Q_scope.
Notation "x <? y" := (Py.lt x y) : Q_scope.
Notation "x >=? y" := (Py.ge x y) : Q_scope.
Notation "x >? y" := (Py.gt x y) : Q_scope.

(** ** [src/config/settings.py] *)

Module settings.

Record Settings : Type := {
  MIN_CREDIT_SCORE : Z;
  MAX_DTI_RATIO : Q;
  MIN_INCOME : Q;
  BASE_INTEREST_RATE : Q
}.

Record tier : Type := { min_score : Z; rate_adjustment : Q }.

Definition RISK_TIERS : gmap string tier :=
  {[ "EXCELLENT" := {| min_score := 750; rate_adjustment := -1.5 |};
     "GOOD" := {| min_score := 700; rate_adjustment := -0.5 |};
     "FAIR" := {| min_score := 650; rate_adjustment := 1.0 |};
     "POOR" := {| min_score := 620; rate_adjustment := 2.5 |} ]}.

(** The values the module holds when no environment variable is set. *)
Definition defaults : Settings :=
  {| MIN_CREDIT_SCORE := 620;
     MAX_DTI_RATIO := 0.43;
     MIN_INCOME := 30000;
     BASE_INTEREST_RATE := 7.5 |}.

(** [os.getenv(name, default)] followed by the conversion [conv] ([int] or
    [float]): the conversion of the variable's text when it is set, the
    default otherwise. *)
Definition getenv {A : Type} (env : gmap string string) (name : string)
    (default : A) (conv : string -> result A) : result A :=
  match env !! name with
  | Some text => conv text
  | None => mret default
  end.

(** The lending parameters, lines 22 to 25: they are read in this order,
    and the first conversion that fails raises. Nothing else is checked.
    [env] is the environment these lines see, after [load_dotenv()]. *)
Definition load (env : gmap string string) : result Settings :=
  min_credit_score ← getenv env "MIN_CREDIT_SCORE" 620 int_of_str;
  max_dti_ratio ← getenv env "MAX_DTI_RATIO" 0.43%Q float_of_str;
  min_income ← getenv env "MIN_INCOME" 30000%Q float_of_str;
  base_interest_rate ← getenv env "BASE_INTEREST_RATE" 7.5%Q float_of_str;
  mret {| MIN_CREDIT_SCORE := min_credit_score;
          MAX_DTI_RATIO := max_dti_ratio;
          MIN_INCOME := min_income;
          BASE_INTEREST_RATE := base_interest_rate |}.


End settings.

Import settings.

(** ** [src/tools/underwriting_tools.py]: the Risk Scorer *)

Module RiskScoringTool.

Record Components : Type := {
  credit_risk : Z;
  dti_risk : Z;
  income_risk : Z;
  employment_risk : Z;
  bankruptcy_penalty : Z
}.

Record Result : Type := {
  total_risk_score : Z;
  risk_level : string;
  components : Components;
  recommendation : string;
  approval_likelihood : string
}.

Definition _score_credit (score : Z) : Z :=
  if score >=? 750 then 5
  else if score >=? 700 then 10
  else if score >=? 650 then 18
  else if score >=? 620 then 23
  else 25.

Definition _score_dti (dti : Q) : Z :=
  if (dti <=? 0.20)%Q then 5
  else if (dti <=? 0.30)%Q then 10
  else if (dti <=? 0.36)%Q then 15
  else if (dti <=? 0.43)%Q then 20
  else 25.

Definition _score_income (income loan_amount : Q) : result Z :=
  ratio ← (if (income >? 0)%Q then truediv loan_amount income else mret 999%Q);
  mret (if (ratio <=? 0.25)%Q then 5
        else if (ratio <=? 0.50)%Q then 10
        else if (ratio <=? 0.75)%Q then 15
        else if (ratio <=? 1.0)%Q then 20
        else 25).

Definition _score_employment (years : Q) : Z :=
  if (years >=? 5)%Q then 5
  else if (years >=? 2)%Q then 10
  else if (years >=? 1)%Q then 18
  else 25.

Definition _get_risk_level (score : Z) : string :=
  if score <=? 25 then "LOW"
  else if score <=? 50 then "MODERATE"
  else if score <=? 75 then "HIGH"
  else "VERY_HIGH".

Definition _get_approval_likelihood (risk_score : Z) : string :=
  if risk_score <=? 30 then "Very High (90%+)"
  else if risk_score <=? 45 then "High (70-89%)"
  else if risk_score <=? 60 then "Moderate (50-69%)"
  else if risk_score <=? 75 then "Low (25-49%)"
  else "Very Low (<25%)".

Section with_settings.

Variable cfg : Settings.

Definition _get_recommendation (risk_score credit_score : Z) (dti : Q) : string :=
  if credit_score <? MIN_CREDIT_SCORE cfg then "DENY - Credit score below minimum"
  else if (dti >? MAX_DTI_RATIO cfg)%Q then "DENY - DTI exceeds maximum"
  else if risk_score <=? 35 then "APPROVE - Strong application"
  else if risk_score <=? 55 then "APPROVE WITH CONDITIONS"
  else if risk_score <=? 75 then "REFER TO SENIOR UNDERWRITER"
  else "DENY - High risk".

Definition _run (credit_score : Z) (dti_ratio annual_income years_employed : Q)
    (bankruptcies : Z) (loan_amount : Q) : result Result :=
  let credit_risk := _score_credit credit_score in
  let dti_risk := _score_dti dti_ratio in
  income_risk ← _score_income annual_income loan_amount;
  let employment_risk := _score_employment years_employed in
  let bankruptcy_penalty := Py.min (bankruptcies * 15) 30 in
  let total_risk :=
    Py.min (credit_risk + dti_risk + income_risk + employment_risk + bankruptcy_penalty) 100 in
  mret {| total_risk_score := round_int total_risk 1;
          risk_level := _get_risk_level total_risk;
          components :=
            {| credit_risk := round_int credit_risk 1;
               dti_risk := round_int dti_risk 1;
               income_risk := round_int income_risk 1;
               employment_risk := round_int employment_risk 1;
               bankruptcy_penalty := bankruptcy_penalty |};
          recommendation := _get_recommendation total_risk credit_score dti_ratio;
          approval_likelihood := _get_approval_likelihood total_risk |}.

End with_settings.

End RiskScoringTool.

(** ** [src/tools/underwriting_tools.py]: the Loan Pricer *)

Module LoanPricingTool.

(** The dictionary [_run] returns. *)
Module Out.
Record rate_breakdown : Type := {
  base_rate : Q;
  credit_adjustment : Q;
  risk_adjustment : Q
}.
Record t : Type := {
  loan_amount : Q;
  term_months : Z;
  interest_rate : Q;
  apr : Q;
  monthly_payment : Q;
  total_interest : Q;
  total_repayment : Q;
  breakdown : rate_breakdown;
  first_payment_interest : Q;
  first_payment_principal : Q
}.
End Out.

(** The locals of [_run], in the order the function computes them. *)

(** [RISK_TIERS.get(credit_tier, {}).get("rate_adjustment", 0)] *)
Definition tier_adjustment (credit_tier : string) : Q :=
  default 0%Q (rate_adjustment <$> RISK_TIERS !! credit_tier).

Definition risk_adjustments : gmap string Q :=
  {[ "LOW" := (-0.5)%Q; "MODERATE" := 0.5%Q; "HIGH" := 1.5%Q; "VERY_HIGH" := 3.0%Q ]}.

Definition risk_adjustment (risk_level : string) : Q :=
  default 0%Q (risk_adjustments !! risk_level).

Definition final_rate (cfg : Settings) (credit_tier risk_level : string) : Q :=
  let final_rate :=
    (BASE_INTEREST_RATE cfg + tier_adjustment credit_tier + risk_adjustment risk_level)%Q in
  Py.max final_rate 5.0.

(** [final_rate / 100 / 12] *)
Definition monthly_rate (final_rate : Q) : result Q :=
  r ← truediv final_rate 100; truediv r 12.

(** The amortization formula and its [else] branch. *)
Definition monthly_payment (loan_amount monthly_rate : Q) (term_months : Z) : result Q :=
  if (monthly_rate >? 0)%Q then
    growth ← pow (1 + monthly_rate) term_months;
    growth' ← pow (1 + monthly_rate) term_months;
    truediv (loan_amount * (monthly_rate * growth)) (growth' - 1)
  else
    months ← float_of_int term_months;
    truediv loan_amount months.

Definition _run (cfg : Settings) (loan_amount : Q) (term_months : Z)
    (credit_tier risk_level : string) : result Out.t :=
  let base_rate := BASE_INTEREST_RATE cfg in
  let tier_adjustment := tier_adjustment credit_tier in
  let risk_adjustment := risk_adjustment risk_level in
  let final_rate := final_rate cfg credit_tier risk_level in
  monthly_rate ← monthly_rate final_rate;
  monthly_payment ← monthly_payment loan_amount monthly_rate term_months;
  months ← float_of_int term_months;
  let total_repayment := (monthly_payment * months)%Q in
  let total_interest := (total_repayment - loan_amount)%Q in
  let apr := final_rate in
  mret {| Out.loan_amount := loan_amount;
          Out.term_months := term_months;
          Out.interest_rate := round final_rate 2;
          Out.apr := round apr 2;
          Out.monthly_payment := round monthly_payment 2;
          Out.total_interest := round total_interest 2;
          Out.total_repayment := round total_repayment 2;
          Out.breakdown :=
            {| Out.base_rate := base_rate;
               Out.credit_adjustment := tier_adjustment;
               Out.risk_adjustment := risk_adjustment |};
          Out.first_payment_interest := round (loan_amount * monthly_rate) 2;
          Out.first_payment_principal :=
            round (monthly_payment - loan_amount * monthly_rate) 2 |}.

End LoanPricingTool.

(** ** [src/tools/application_tools.py] *)

Module CreditCheckTool.

Definition _get_credit_tier (score : Z) : string :=
  if score >=? 750 then "EXCELLENT"
  else if score >=? 700 then "GOOD"
  else if score >=? 650 then "FAIR"
  else if score >=? 620 then "POOR"
  else "SUBPRIME".

Record Evaluation : Type := {
  credit_score : Z;
  meets_minimum : bool;
  credit_tier : string;
  risk_factors : list string;
  positive_factors : list string
}.

(** [_run] appends to the two lists of the dictionary in turn; here the
    lists are threaded through the three decisions. *)
Definition _run (cfg : Settings) (credit_score bankruptcies late_payments : Z) : Evaluation :=
  let risk_factors : list string := [] in
  let positive_factors : list string := [] in
  let '(risk_factors, positive_factors) :=
    if credit_score >=? 750 then
      (risk_factors, (positive_factors ++ ["Excellent credit score"])%list)
    else if credit_score >=? 700 then
      (risk_factors, (positive_factors ++ ["Good credit score"])%list)
    else if credit_score >=? 650 then
      ((risk_factors ++ ["Fair credit score - higher risk"])%list, positive_factors)
    else
      ((risk_factors ++ ["Poor credit score - high risk"])%list, positive_factors) in
  let '(risk_factors, positive_factors) :=
    if bankruptcies >? 0 then
      ((risk_factors ++ [pretty bankruptcies +:+ " bankruptcy(ies) on record"])%list,
       positive_factors)
    else
      (risk_factors, (positive_factors ++ ["No bankruptcies"])%list) in
  let '(risk_factors, positive_factors) :=
    if late_payments >? 2 then
      ((risk_factors ++ [pretty late_payments +:+ " late payments in last year"])%list,
       positive_factors)
    else if late_payments =? 0 then
      (risk_factors, (positive_factors ++ ["Perfect payment history"])%list)
    else
      (risk_factors, positive_factors) in
  {| credit_score := credit_score;
     meets_minimum := credit_score >=? MIN_CREDIT_SCORE cfg;
     credit_tier := _get_credit_tier credit_score;
     risk_factors := risk_factors;
     positive_factors := positive_factors |}.

End CreditCheckTool.

Module DTICalculatorTool.

Record Result : Type := {
  monthly_income : Q;
  current_monthly_debt : Q;
  proposed_payment : Q;
  current_dti : Q;
  proposed_dti : Q;
  max_allowed_dti : Q;
  passes_dti_check : bool;
  dti_assessment : string
}.

Definition _assess_dti (dti : Q) : string :=
  if (dti <=? 0.20)%Q then "Excellent - very low debt burden"
  else if (dti <=? 0.35)%Q then "Good - manageable debt level"
  else if (dti <=? 0.43)%Q then "Acceptable - at upper limit"
  else "Too high - exceeds maximum threshold".

Definition _run (cfg : Settings)
    (annual_income monthly_debt_payments proposed_loan_payment : Q) : result Result :=
  monthly_income ← truediv annual_income 12;
  current_dti ←
    (if (monthly_income >? 0)%Q then truediv monthly_debt_payments monthly_income
     else mret 0%Q);
  proposed_dti ←
    (if (monthly_income >? 0)%Q
     then truediv (monthly_debt_payments + proposed_loan_payment) monthly_income
     else mret 0%Q);
  mret {| monthly_income := round monthly_income 2;
          current_monthly_debt := monthly_debt_payments;
          proposed_payment := proposed_loan_payment;
          current_dti := round (current_dti * 100) 2;
          proposed_dti := round (proposed_dti * 100) 2;
          max_allowed_dti := (MAX_DTI_RATIO cfg * 100)%Q;
          passes_dti_check := (proposed_dti <=? MAX_DTI_RATIO cfg)%Q;
          dti_assessment := _assess_dti proposed_dti |}.

End DTICalculatorTool.

(** ** [src/models/loan_application.py] *)

Module LoanApplication.

Record FinancialInfo : Type := {
  credit_score : Z;
  annual_income : Q;
  monthly_debt_payments : Q;
  bank_account_balance : Q;
  existing_loans : Z;
  bankruptcies : Z;
  late_payments_last_year : Z
}.

(** The fields of a [LoanApplication] that [calculate_dti] reads or writes;
    the applicant, the employment and the loan request are left out. *)
Record t : Type := {
  financials : FinancialInfo;
  debt_to_income_ratio : option Q
}.

(** The method assigns [self.debt_to_income_ratio] only when the monthly
    income is positive; the result pairs the returned float with the
    application after the call. *)
Definition calculate_dti (self : t) : result (Q * t) :=
  monthly_income ← truediv (annual_income (financials self)) 12;
  self ←
    (if (monthly_income >? 0)%Q then
       ratio ← truediv (monthly_debt_payments (financials self)) monthly_income;
       mret {| financials := financials self; debt_to_income_ratio := Some ratio |}
     else mret self);
  mret (or_ (debt_to_income_ratio self) 0, self).

End LoanApplication.

(** ** Vocabulary of the statements *)

Module LoanPricingSpec.
Import LoanPricingTool.

(** The keys of [RISK_TIERS] and of [risk_adjustments]. *)
Definition known_tiers : list string := ["EXCELLENT"; "GOOD"; "FAIR"; "POOR"].
Definition known_levels : list string := ["LOW"; "MODERATE"; "HIGH"; "VERY_HIGH"].

(** The dictionary [_run] returns when [(1 + r) ** term_months] is
    [growth]. *)
Definition offer (cfg : Settings) (loan_amount : Q) (term_months : Z)
    (credit_tier risk_level : string) (growth : Q) : Out.t :=
  let final_rate := final_rate cfg credit_tier risk_level in
  let r := (final_rate / 100 / 12)%Q in
  let payment := (loan_amount * (r * growth) / (growth - 1))%Q in
  {| Out.loan_amount := loan_amount;
     Out.term_months := term_months;
     Out.interest_rate := round final_rate 2;
     Out.apr := round final_rate 2;
     Out.monthly_payment := round payment 2;
     Out.total_interest := round (payment * inject_Z term_months - loan_amount) 2;
     Out.total_repayment := round (payment * inject_Z term_months) 2;
     Out.breakdown :=
       {| Out.base_rate := BASE_INTEREST_RATE cfg;
          Out.credit_adjustment := tier_adjustment credit_tier;
          Out.risk_adjustment := risk_adjustment risk_level |};
     Out.first_payment_interest := round (loan_amount * r) 2;
     Out.first_payment_principal := round (payment - loan_amount * r) 2 |}.

End LoanPricingSpec.

(** * Properties *)

(** ** The builtins *)

Section builtins.

Lemma le_true (x y : Q) : (x <=? y)%Q = true <-> (x <= y)%Q.
Proof. apply Qle_bool_iff. Qed.

Lemma gt_true (x y : Q) : (x >? y)%Q = true <-> (y < x)%Q.
Proof.
  unfold Py.gt, Py.lt. rewrite negb_true_iff, <- not_true_iff_false, Qle_bool_iff.
  split; [apply Qnot_le_lt | apply Qlt_not_le].
Qed.

Lemma gt_false (x y : Q) : (x >? y)%Q = false <-> (x <= y)%Q.
Proof.
  unfold Py.gt, Py.lt. rewrite negb_false_iff. apply Qle_bool_iff.
Qed.

Lemma min_spec (a b : Z) : Py.min a b = Z.min a b.
Proof. unfold Py.min. destruct (Z.ltb_spec b a); lia. Qed.

Lemma max_spec (a b : Q) : (Py.max a b == Qmax a b)%Q.
Proof.
  unfold Py.max. destruct (b >? a)%Q eqn:E.
  - apply gt_true in E. symmetry. apply Q.max_r. lra.
  - apply gt_false in E. symmetry. apply Q.max_l. lra.
Qed.

Lemma truediv_ok (x y : Q) : ~ (y == 0)%Q -> truediv x y = Ok (x / y)%Q.
Proof.
  intros H. unfold truediv. destruct (Qeq_bool y 0) eqn:E; [|reflexivity].
  apply Qeq_bool_iff in E. contradiction.
Qed.

Lemma truediv_zero (x y : Q) : (y == 0)%Q -> truediv x y = Raise ZeroDivisionError.
Proof. intros H. unfold truediv. now rewrite (Qeq_eq_bool _ _ H). Qed.

(** An annual percentage as a monthly fraction. *)
Lemma per_month (x : Q) : (x / 100 / 12 == x * (1 # 1200))%Q.
Proof. field. Qed.

End builtins.

(** ** Risk Scorer *)

Module RiskScoringFacts.
Import RiskScoringTool.

Lemma score_credit_range (score : Z) : 5 <= _score_credit score <= 25.
Proof. unfold _score_credit. repeat case_match; lia. Qed.

Lemma score_dti_range (dti : Q) : 5 <= _score_dti dti <= 25.
Proof. unfold _score_dti. repeat case_match; lia. Qed.

Lemma score_employment_range (years : Q) : 5 <= _score_employment years <= 25.
Proof. unfold _score_employment. repeat case_match; lia. Qed.

(** The guard [income > 0] keeps the division of [_score_income] defined. *)
Lemma score_income_ok (income loan_amount : Q) :
  exists v, _score_income income loan_amount = Ok v /\ 5 <= v <= 25.
Proof.
  unfold _score_income. destruct (income >? 0)%Q eqn:E.
  - apply gt_true in E. rewrite truediv_ok by lra. cbn.
    eexists; split; [reflexivity|]. repeat case_match; lia.
  - exists 25. split; [reflexivity | lia].
Qed.

(** [_run] always returns a dictionary, whose fields are these. *)
Lemma risk_run_ok (cfg : Settings) (credit_score : Z) (dti_ratio annual_income years_employed : Q)
    (bankruptcies : Z) (loan_amount : Q) :
  exists income_risk,
    _score_income annual_income loan_amount = Ok income_risk /\
    5 <= income_risk <= 25 /\
    let penalty := Py.min (bankruptcies * 15) 30 in
    let total :=
      Py.min (_score_credit credit_score + _score_dti dti_ratio + income_risk
              + _score_employment years_employed + penalty) 100 in
    _run cfg credit_score dti_ratio annual_income years_employed bankruptcies loan_amount
    = Ok {| total_risk_score := total;
            risk_level := _get_risk_level total;
            components :=
              {| credit_risk := _score_credit credit_score;
                 dti_risk := _score_dti dti_ratio;
                 income_risk := income_risk;
                 employment_risk := _score_employment years_employed;
                 bankruptcy_penalty := penalty |};
            recommendation := _get_recommendation cfg total credit_score dti_ratio;
            approval_likelihood := _get_approval_likelihood total |}.
Proof.
  destruct (score_income_ok annual_income loan_amount) as (v & Hv & Hr).
  exists v. repeat split; try lia; try assumption.
  unfold _run. rewrite Hv. reflexivity.
Qed.

(** C1. For every input of the Risk Scorer a result is returned in which
    [bankruptcy_penalty] is [min(bankruptcies * 15, 30)] and
    [total_risk_score] is the minimum of 100 and the sum of the five
    reported components; three bankruptcies give the penalty 30, and the
    input 300, 0.9, 1, 0, 5, 1000000 gives the score 100 exactly. *)
Theorem total_risk_score_is_clamped_sum :
  (forall cfg credit_score dti_ratio annual_income years_employed bankruptcies loan_amount,
     exists r,
       _run cfg credit_score dti_ratio annual_income years_employed bankruptcies loan_amount
       = Ok r /\
       bankruptcy_penalty (components r) = Z.min (bankruptcies * 15) 30 /\
       total_risk_score r
       = Z.min (credit_risk (components r) + dti_risk (components r)
                + income_risk (components r) + employment_risk (components r)
                + bankruptcy_penalty (components r)) 100) /\
  (forall cfg credit_score dti_ratio annual_income years_employed loan_amount,
     exists r,
       _run cfg credit_score dti_ratio annual_income years_employed 3 loan_amount = Ok r /\
       bankruptcy_penalty (components r) = 30) /\
  (forall cfg,
     exists r,
       _run cfg 300 0.9 1 0 5 1000000 = Ok r /\
       total_risk_score r = 100 /\
       100 < credit_risk (components r) + dti_risk (components r)
             + income_risk (components r) + employment_risk (components r)
             + bankruptcy_penalty (components r)).
Proof.
  split; [|split].
  - intros cfg cs dti inc yrs b loan.
    destruct (risk_run_ok cfg cs dti inc yrs b loan) as (v & _ & _ & ->).
    eexists; split; [reflexivity|]. cbn. now rewrite !min_spec.
  - intros cfg cs dti inc yrs loan.
    destruct (risk_run_ok cfg cs dti inc yrs 3 loan) as (v & _ & _ & ->).
    eexists; split; reflexivity.
  - intros cfg. eexists; split; [reflexivity|]. vm_compute. split; reflexivity.
Qed.

(** C2. The recommendation of every Risk Scorer result follows the priority
    order: a credit score below the configured minimum denies whatever the
    total score is; otherwise a DTI ratio strictly above the configured
    maximum denies; otherwise the band of the total score decides. With no
    environment variable set the two thresholds are 620 and 0.43. *)
Theorem recommendation_priority_order :
  (settings.load ∅ = Ok defaults /\
   MIN_CREDIT_SCORE defaults = 620 /\ MAX_DTI_RATIO defaults = 0.43%Q) /\
  forall cfg credit_score dti_ratio annual_income years_employed bankruptcies loan_amount,
    exists r,
      _run cfg credit_score dti_ratio annual_income years_employed bankruptcies loan_amount
      = Ok r /\
      (credit_score < MIN_CREDIT_SCORE cfg ->
       recommendation r = "DENY - Credit score below minimum") /\
      (MIN_CREDIT_SCORE cfg <= credit_score -> (MAX_DTI_RATIO cfg < dti_ratio)%Q ->
       recommendation r = "DENY - DTI exceeds maximum") /\
      (MIN_CREDIT_SCORE cfg <= credit_score -> (dti_ratio <= MAX_DTI_RATIO cfg)%Q ->
       (total_risk_score r <= 35 -> recommendation r = "APPROVE - Strong application") /\
       (35 < total_risk_score r <= 55 -> recommendation r = "APPROVE WITH CONDITIONS") /\
       (55 < total_risk_score r <= 75 -> recommendation r = "REFER TO SENIOR UNDERWRITER") /\
       (75 < total_risk_score r -> recommendation r = "DENY - High risk")).
Proof.
  split; [repeat split|].
  intros cfg cs dti inc yrs b loan.
  destruct (risk_run_ok cfg cs dti inc yrs b loan) as (v & _ & _ & ->).
  eexists; split; [reflexivity|]. cbn.
  set (total := Py.min _ 100). clearbody total.
  unfold _get_recommendation.
  destruct (Z.ltb_spec cs (MIN_CREDIT_SCORE cfg)) as [Hc|Hc].
  { split; [reflexivity|]. split; intros; lia. }
  split; [intros; lia|].
  destruct (dti >? MAX_DTI_RATIO cfg)%Q eqn:Hd.
  { apply gt_true in Hd. split; [reflexivity|]. intros _ Hle. lra. }
  apply gt_false in Hd. split; [intros _ Hlt; lra|]. intros _ _.
  destruct (Z.leb_spec total 35); [repeat split; intros; solve [reflexivity | lia]|].
  destruct (Z.leb_spec total 55); [repeat split; intros; solve [reflexivity | lia]|].
  destruct (Z.leb_spec total 75); repeat split; intros; solve [reflexivity | lia].
Qed.

(** C9. With a non-negative number of bankruptcies the four sub-scores are
    at least 5 each and the penalty is not negative, so the total score lies
    between 20 and 100. *)
Theorem total_risk_score_at_least_20
    (cfg : Settings) (credit_score : Z) (dti_ratio annual_income years_employed : Q)
    (bankruptcies : Z) (loan_amount : Q) :
  0 <= bankruptcies ->
  exists r,
    _run cfg credit_score dti_ratio annual_income years_employed bankruptcies loan_amount
    = Ok r /\
    5 <= credit_risk (components r) /\
    5 <= dti_risk (components r) /\
    5 <= income_risk (components r) /\
    5 <= employment_risk (components r) /\
    0 <= bankruptcy_penalty (components r) /\
    20 <= total_risk_score r <= 100.
Proof.
  intros Hb.
  destruct (risk_run_ok cfg credit_score dti_ratio annual_income years_employed bankruptcies
              loan_amount) as (v & _ & Hv & ->).
  eexists; split; [reflexivity|]. cbn.
  pose proof (score_credit_range credit_score).
  pose proof (score_dti_range dti_ratio).
  pose proof (score_employment_range years_employed).
  rewrite !min_spec. lia.
Qed.

(** The bound 20 of C9 is met: the best profile scores exactly 20. *)
Lemma total_risk_score_at_least_20_witness :
  exists r,
    _run defaults 760 0.1 100000 10 0 1000 = Ok r /\
    5 <= credit_risk (components r) /\
    5 <= dti_risk (components r) /\
    5 <= income_risk (components r) /\
    5 <= employment_risk (components r) /\
    0 <= bankruptcy_penalty (components r) /\
    20 <= total_risk_score r <= 100.
Proof.
  apply (total_risk_score_at_least_20 defaults 760 0.1 100000 10 0 1000). lia.
Defined.

(** The hypothesis of C9 is needed: a negative count lowers the total. *)
Example negative_bankruptcies_score_below_20 :
  exists r, _run defaults 760 0.1 100000 10 (-1) 1000 = Ok r /\ total_risk_score r = 5.
Proof. eexists; split; reflexivity. Qed.

(** The policy override of C2 at work: a total of 40 would approve with
    conditions, the credit score of 600 denies. *)
Example low_credit_score_overrides_total :
  exists r,
    _run defaults 600 0.1 100000 10 0 1000 = Ok r /\
    total_risk_score r = 40 /\
    recommendation r = "DENY - Credit score below minimum".
Proof. eexists; repeat split; reflexivity. Qed.

Example high_dti_overrides_total :
  exists r,
    _run defaults 760 0.5 100000 10 0 1000 = Ok r /\
    total_risk_score r = 40 /\
    recommendation r = "DENY - DTI exceeds maximum".
Proof. eexists; repeat split; reflexivity. Qed.

Example dti_at_the_maximum_is_not_denied :
  exists r,
    _run defaults 760 0.43 100000 10 0 1000 = Ok r /\
    total_risk_score r = 35 /\
    recommendation r = "APPROVE - Strong application".
Proof. eexists; repeat split; reflexivity. Qed.

Example best_profile_scores_20 :
  exists r, _run defaults 760 0.1 100000 10 0 1000 = Ok r /\ total_risk_score r = 20.
Proof. eexists; split; reflexivity. Qed.

End RiskScoringFacts.

(** ** Loan Pricer *)

Module LoanPricingFacts.
Import LoanPricingTool LoanPricingSpec.

Lemma tier_adjustment_unknown (credit_tier : string) :
  credit_tier ∉ known_tiers -> tier_adjustment credit_tier = 0%Q.
Proof.
  unfold known_tiers. rewrite !not_elem_of_cons. intros (? & ? & ? & ? & _).
  unfold tier_adjustment, RISK_TIERS.
  rewrite !lookup_insert_ne, lookup_singleton_ne by congruence. reflexivity.
Qed.

Lemma risk_adjustment_unknown (risk_level : string) :
  risk_level ∉ known_levels -> risk_adjustment risk_level = 0%Q.
Proof.
  unfold known_levels. rewrite !not_elem_of_cons. intros (? & ? & ? & ? & _).
  unfold risk_adjustment, risk_adjustments.
  rewrite !lookup_insert_ne, lookup_singleton_ne by congruence. reflexivity.
Qed.

Lemma final_rate_floor (cfg : Settings) (credit_tier risk_level : string) :
  (5.0 <= final_rate cfg credit_tier risk_level)%Q.
Proof. unfold final_rate. rewrite max_spec. apply Q.le_max_r. Qed.

Lemma monthly_rate_ok (final_rate : Q) :
  monthly_rate final_rate = Ok (final_rate / 100 / 12)%Q.
Proof. reflexivity. Qed.

(** The floor of 5.0 keeps the monthly rate positive. *)
Lemma monthly_rate_pos (cfg : Settings) (credit_tier risk_level : string) :
  (0 < final_rate cfg credit_tier risk_level / 100 / 12)%Q.
Proof.
  pose proof (final_rate_floor cfg credit_tier risk_level).
  rewrite per_month. lra.
Qed.

Lemma overflow_bound_gt_1 : (1 < overflow_bound)%Q.
Proof. reflexivity. Qed.

Lemma underflow_bound_lt_1 : (underflow_bound < 1)%Q.
Proof. reflexivity. Qed.

Lemma float_of_int_outcome (n : Z) :
  float_of_int n = Raise OverflowError \/ float_of_int n = Ok (inject_Z n).
Proof. unfold float_of_int. destruct (Qle_bool _ _); auto. Qed.

(** Above rate 0 the growth factor [(1 + r) ** n] is 1 only for [n = 0]. *)
Lemma growth_ne_1 (r : Q) (n : Z) :
  (0 < r)%Q -> n <> 0 -> ~ ((1 + r) ^ n - 1 == 0)%Q.
Proof.
  intros Hr Hn.
  assert (H1 : (1 < 1 + r)%Q) by lra.
  destruct (Z.lt_total n 0) as [Hneg|[->|Hpos]]; [|contradiction|].
  - pose proof (Qpower_lt_compat_l (1 + r) n 0 Hneg H1) as H.
    change ((1 + r) ^ 0)%Q with 1%Q in H. lra.
  - pose proof (Qpower_1_lt (1 + r) n H1 Hpos). lra.
Qed.

(** A power that [**] returns was computed from an exponent a float can
    hold. *)
Lemma pow_converts_exponent (x : Q) (n : Z) (g : Q) :
  pow x n = Ok g -> float_of_int n = Ok (inject_Z n).
Proof.
  unfold pow. destruct (float_of_int_outcome n) as [E|E]; rewrite E; [discriminate|].
  reflexivity.
Qed.

Lemma pow_0 (x : Q) : pow x 0 = Ok 1%Q.
Proof. reflexivity. Qed.

(** The outcomes of [x ** n] for a base above 1 and an exponent other than
    0: an [OverflowError], or a power that is not 1; it is the exact power,
    above 1, for a positive exponent, and below 1, possibly 0, for a
    negative one. *)
Lemma pow_above_1 (x : Q) (n : Z) :
  (1 < x)%Q -> n <> 0 ->
  pow x n = Raise OverflowError \/
  exists g,
    pow x n = Ok g /\ (0 <= g)%Q /\ ~ (g - 1 == 0)%Q /\
    (0 < n -> (1 < g)%Q /\ g = (x ^ n)%Q) /\
    (n < 0 -> (g < 1)%Q).
Proof.
  intros Hx Hn. unfold pow.
  destruct (float_of_int_outcome n) as [E|E]; rewrite E; [left; reflexivity|].
  cbn [mbind result_bind].
  destruct (Z.eqb_spec n 0) as [|_]; [contradiction|].
  destruct (Qeq_bool x 0) eqn:Ex; [apply Qeq_bool_iff in Ex; lra|].
  cbv zeta.
  assert (Hy : (0 < x ^ n)%Q) by (apply Qpower_0_lt; lra).
  assert (Hsign : (0 < n -> (1 < x ^ n)%Q) /\ (n < 0 -> (x ^ n < 1)%Q)).
  { split; intros H.
    - apply Qpower_1_lt; assumption.
    - pose proof (Qpower_lt_compat_l x n 0 H Hx) as Hlt.
      change (x ^ 0)%Q with 1%Q in Hlt. exact Hlt. }
  destruct Hsign as [Hpos Hneg].
  destruct (Qle_bool overflow_bound (Qabs (x ^ n))); [left; reflexivity|].
  right. destruct (Qle_bool (Qabs (x ^ n)) underflow_bound) eqn:Eu.
  - apply Qle_bool_iff in Eu. rewrite Qabs_pos in Eu by lra.
    pose proof underflow_bound_lt_1 as Hu.
    exists 0%Q. split; [reflexivity|]. split; [lra|]. split; [lra|].
    split; [|intros _; lra].
    intros Hn'. specialize (Hpos Hn'). lra.
  - exists (x ^ n)%Q. split; [reflexivity|]. split; [lra|].
    split; [|split; [intros H; split; [auto | reflexivity] | auto]].
    destruct (Z.lt_total n 0) as [H|[H|H]]; [| contradiction |].
    + specialize (Hneg H). lra.
    + specialize (Hpos H). lra.
Qed.

(** The outcomes of the amortization branch for a term other than 0. *)
Lemma monthly_payment_outcome (loan_amount r : Q) (n : Z) :
  (0 < r)%Q -> n <> 0 ->
  monthly_payment loan_amount r n = Raise OverflowError \/
  exists g,
    pow (1 + r) n = Ok g /\ (0 <= g)%Q /\ ~ (g - 1 == 0)%Q /\
    (0 < n -> (1 < g)%Q /\ g = ((1 + r) ^ n)%Q) /\
    (n < 0 -> (g < 1)%Q) /\
    monthly_payment loan_amount r n = Ok (loan_amount * (r * g) / (g - 1))%Q.
Proof.
  intros Hr Hn. unfold monthly_payment. rewrite (proj2 (gt_true r 0) Hr).
  destruct (pow_above_1 (1 + r) n ltac:(lra) Hn) as [E|(g & E & H0 & H1 & Hp & Hm)];
    rewrite E; [left; reflexivity|].
  right. exists g. cbn [mbind result_bind].
  split; [reflexivity|]. repeat (split; [assumption|]). apply truediv_ok. exact H1.
Qed.

Lemma monthly_payment_term_0 (loan_amount r : Q) :
  monthly_payment loan_amount r 0 = Raise ZeroDivisionError.
Proof.
  unfold monthly_payment. destruct (r >? 0)%Q eqn:E.
  - rewrite pow_0. cbn [mbind result_bind]. apply truediv_zero. reflexivity.
  - reflexivity.
Qed.

(** [_run] once the power is known. *)
Lemma pricing_run_with (cfg : Settings) (loan_amount : Q) (term_months : Z)
    (credit_tier risk_level : string) (g : Q) :
  pow (1 + final_rate cfg credit_tier risk_level / 100 / 12) term_months = Ok g ->
  ~ (g - 1 == 0)%Q ->
  _run cfg loan_amount term_months credit_tier risk_level
  = Ok (offer cfg loan_amount term_months credit_tier risk_level g).
Proof.
  intros Hg Hne. unfold _run. rewrite monthly_rate_ok. cbn [mbind result_bind].
  unfold monthly_payment. rewrite (proj2 (gt_true _ 0) (monthly_rate_pos _ _ _)).
  rewrite Hg. cbn [mbind result_bind]. rewrite truediv_ok by exact Hne.
  cbn [mbind result_bind]. rewrite (pow_converts_exponent _ _ _ Hg).
  reflexivity.
Qed.

(** The outcomes of [_run] for a term other than 0. *)
Lemma pricing_run_outcome (cfg : Settings) (loan_amount : Q) (term_months : Z)
    (credit_tier risk_level : string) :
  term_months <> 0 ->
  _run cfg loan_amount term_months credit_tier risk_level = Raise OverflowError \/
  exists g,
    pow (1 + final_rate cfg credit_tier risk_level / 100 / 12) term_months = Ok g /\
    (0 <= g)%Q /\ ~ (g - 1 == 0)%Q /\
    (0 < term_months ->
     (1 < g)%Q /\
     g = ((1 + final_rate cfg credit_tier risk_level / 100 / 12) ^ term_months)%Q) /\
    (term_months < 0 -> (g < 1)%Q) /\
    _run cfg loan_amount term_months credit_tier risk_level
    = Ok (offer cfg loan_amount term_months credit_tier risk_level g).
Proof.
  intros Hn.
  pose proof (monthly_rate_pos cfg credit_tier risk_level) as Hr.
  destruct (pow_above_1 (1 + final_rate cfg credit_tier risk_level / 100 / 12)
              term_months ltac:(lra) Hn) as [E|(g & E & H0 & H1 & Hp & Hm)].
  - left. unfold _run. rewrite monthly_rate_ok. cbn [mbind result_bind].
    unfold monthly_payment. rewrite (proj2 (gt_true _ 0) Hr), E. reflexivity.
  - right. exists g. repeat (split; [assumption|]).
    apply pricing_run_with; assumption.
Qed.

Lemma run_term_0 (cfg : Settings) (loan_amount : Q) (credit_tier risk_level : string) :
  _run cfg loan_amount 0 credit_tier risk_level = Raise ZeroDivisionError.
Proof.
  unfold _run. rewrite monthly_rate_ok. cbn [mbind result_bind].
  now rewrite monthly_payment_term_0.
Qed.

(** Every offer [_run] returns has this form. *)
Lemma pricing_run_inv (cfg : Settings) (loan_amount : Q) (term_months : Z)
    (credit_tier risk_level : string) (o : Out.t) :
  _run cfg loan_amount term_months credit_tier risk_level = Ok o ->
  exists g, o = offer cfg loan_amount term_months credit_tier risk_level g.
Proof.
  intros H. destruct (Z.eq_dec term_months 0) as [->|Hn].
  - rewrite run_term_0 in H. discriminate.
  - destruct (pricing_run_outcome cfg loan_amount term_months credit_tier risk_level Hn)
      as [E|(g & _ & _ & _ & _ & _ & E)]; rewrite E in H; [discriminate|].
    injection H as <-. now exists g.
Qed.

(** C8. The final rate is the larger of 5.0 and the sum of the base rate and
    the two adjustments; a sum below 5.0 gives exactly 5.0; the adjustments
    are those of the two tables, and 0 for a tier or a level they lack.
    Every offer returned reports this rate rounded to two places, and the
    three summands. *)
Theorem final_rate_is_floored_sum :
  forall cfg credit_tier risk_level,
    let sum :=
      (BASE_INTEREST_RATE cfg + tier_adjustment credit_tier + risk_adjustment risk_level)%Q in
    (final_rate cfg credit_tier risk_level == Qmax sum 5.0)%Q /\
    ((sum < 5.0)%Q -> final_rate cfg credit_tier risk_level = 5.0%Q) /\
    ((5.0 <= sum)%Q -> final_rate cfg credit_tier risk_level = sum) /\
    (credit_tier ∉ known_tiers -> tier_adjustment credit_tier = 0%Q) /\
    (risk_level ∉ known_levels -> risk_adjustment risk_level = 0%Q) /\
    tier_adjustment <$> known_tiers = [(-1.5)%Q; (-0.5)%Q; 1.0%Q; 2.5%Q] /\
    risk_adjustment <$> known_levels = [(-0.5)%Q; 0.5%Q; 1.5%Q; 3.0%Q] /\
    (forall loan_amount term_months o,
       _run cfg loan_amount term_months credit_tier risk_level = Ok o ->
       Out.interest_rate o = round (final_rate cfg credit_tier risk_level) 2 /\
       Out.apr o = Out.interest_rate o /\
       Out.breakdown o
       = {| Out.base_rate := BASE_INTEREST_RATE cfg;
            Out.credit_adjustment := tier_adjustment credit_tier;
            Out.risk_adjustment := risk_adjustment risk_level |}).
Proof.
  intros cfg credit_tier risk_level sum.
  split; [|split; [|split; [|split; [|split; [|split; [|split]]]]]].
  - apply max_spec.
  - intros H. unfold final_rate. fold sum. unfold Py.max.
    now rewrite (proj2 (gt_true _ _) H).
  - intros H. unfold final_rate. fold sum. unfold Py.max.
    now rewrite (proj2 (gt_false _ _) H).
  - apply tier_adjustment_unknown.
  - apply risk_adjustment_unknown.
  - reflexivity.
  - reflexivity.
  - intros loan_amount term_months o Ho.
    destruct (pricing_run_inv _ _ _ _ _ _ Ho) as (g & ->). repeat split.
Qed.

(** C10. The Credit Evaluator's tier for a score under 620 is "SUBPRIME",
    which [RISK_TIERS] lacks, so its adjustment is 0 while "POOR" gets 2.5:
    the SUBPRIME rate is never above the POOR rate, and is strictly below it
    whenever the POOR rate is above the floor. *)
Theorem subprime_rate_below_poor_rate :
  (forall score, score < 620 -> CreditCheckTool._get_credit_tier score = "SUBPRIME") /\
  (forall score, 620 <= score < 650 -> CreditCheckTool._get_credit_tier score = "POOR") /\
  RISK_TIERS !! "SUBPRIME" = None /\
  tier_adjustment "SUBPRIME" = 0%Q /\
  tier_adjustment "POOR" = 2.5%Q /\
  forall cfg risk_level,
    (final_rate cfg "SUBPRIME" risk_level <= final_rate cfg "POOR" risk_level)%Q /\
    ((5.0 < final_rate cfg "POOR" risk_level)%Q ->
     (final_rate cfg "SUBPRIME" risk_level < final_rate cfg "POOR" risk_level)%Q).
Proof.
  split; [|split; [|split; [|split; [|split]]]]; try reflexivity.
  - intros score H. unfold CreditCheckTool._get_credit_tier.
    rewrite !Z.geb_leb. repeat (case_match; try reflexivity); lia.
  - intros score H. unfold CreditCheckTool._get_credit_tier.
    rewrite !Z.geb_leb. repeat (case_match; try reflexivity); lia.
  - intros cfg risk_level.
    pose proof (max_spec (BASE_INTEREST_RATE cfg + tier_adjustment "SUBPRIME"
                          + risk_adjustment risk_level) 5.0) as Hs.
    pose proof (max_spec (BASE_INTEREST_RATE cfg + tier_adjustment "POOR"
                          + risk_adjustment risk_level) 5.0) as Hp.
    fold (final_rate cfg "SUBPRIME" risk_level) in Hs.
    fold (final_rate cfg "POOR" risk_level) in Hp.
    change (tier_adjustment "SUBPRIME") with 0%Q in Hs.
    change (tier_adjustment "POOR") with 2.5%Q in Hp.
    revert Hs Hp. generalize (final_rate cfg "SUBPRIME" risk_level).
    generalize (final_rate cfg "POOR" risk_level).
    generalize (risk_adjustment risk_level). generalize (BASE_INTEREST_RATE cfg).
    intros b a p s Hs Hp.
    destruct (Q.max_spec (b + 0 + a) 5.0) as [[? Hs']|[? Hs']];
    destruct (Q.max_spec (b + 2.5 + a) 5.0) as [[? Hp']|[? Hp']];
    rewrite Hs' in Hs; rewrite Hp' in Hp; split; intros; lra.
Qed.




(** C5, as the code computes it. With the default base rate the offer for
    10000 over 36 months at tier GOOD and level LOW has the rate
    7.5 - 0.5 - 0.5 = 6.5, the monthly rate 13/2400 (0.0054167 to seven
    places), the payment 306.49, the repayment 11033.64 and the interest
    1033.64. *)
Theorem sample_offer_good_low_36 :
  exists o r,
    _run defaults 10000 36 "GOOD" "LOW" = Ok o /\
    (final_rate defaults "GOOD" "LOW" == 7.5 - 0.5 - 0.5)%Q /\
    (final_rate defaults "GOOD" "LOW" == 6.5)%Q /\
    (Out.interest_rate o == 6.5)%Q /\
    monthly_rate (final_rate defaults "GOOD" "LOW") = Ok r /\
    (r == 13 # 2400)%Q /\
    (Qabs (r - 0.0054167) < 0.00000005)%Q /\
    (Out.monthly_payment o == 306.49)%Q /\
    (Out.total_repayment o == 11033.64)%Q /\
    (Out.total_interest o == 1033.64)%Q.
Proof.
  eexists. eexists.
  split; [eapply pricing_run_with; [vm_compute; reflexivity | discriminate]|].
  do 3 (split; [vm_compute; reflexivity|]).
  split; [apply monthly_rate_ok|].
  do 3 (split; [vm_compute; reflexivity|]).
  split; vm_compute; reflexivity.
Qed.

(** The figures C5 gives for that offer are not the code's: the reported
    payment is 47 cents away from 306.96, and the repayment and the interest
    are 16.92 away from 11050.56 and 1050.56. *)
Lemma sample_offer_is_not_306_96 :
  exists o,
    _run defaults 10000 36 "GOOD" "LOW" = Ok o /\
    (Out.monthly_payment o - 306.96 == - 0.47)%Q /\
    (Out.total_repayment o - 11050.56 == - 16.92)%Q /\
    (Out.total_interest o - 1050.56 == - 16.92)%Q /\
    ~ (Qabs (Out.monthly_payment o - 306.96) <= 0.01)%Q.
Proof.
  eexists.
  split; [eapply pricing_run_with; [vm_compute; reflexivity | discriminate]|].
  do 3 (split; [vm_compute; reflexivity|]).
  intros H. vm_compute in H. apply H. reflexivity.
Qed.


End LoanPricingFacts.

(** ** DTI Calculator *)

Module DTIFacts.
Import DTICalculatorTool.

Lemma round_0 : (round (0 * 100) 2 == 0)%Q.
Proof. reflexivity. Qed.


(** C7. When the monthly income [annual_income / 12] is not positive the
    calculator returns, without raising, a result whose two ratios are 0; the
    check then compares 0 with the limit. For an annual income of 0 with
    monthly debts of 500 and the default limit the check passes. *)
Theorem dti_is_zero_without_income :
  (forall cfg annual_income monthly_debt_payments proposed_loan_payment,
     (annual_income / 12 <= 0)%Q ->
     exists r,
       _run cfg annual_income monthly_debt_payments proposed_loan_payment = Ok r /\
       (current_dti r == 0)%Q /\
       (proposed_dti r == 0)%Q /\
       passes_dti_check r = (0 <=? MAX_DTI_RATIO cfg)%Q) /\
  (forall proposed_loan_payment,
     exists r,
       _run defaults 0 500 proposed_loan_payment = Ok r /\
       (current_dti r == 0)%Q /\
       (proposed_dti r == 0)%Q /\
       passes_dti_check r = true).
Proof.
  split.
  - intros cfg annual_income debts proposed H.
    unfold _run. change (truediv annual_income 12) with (Ok (annual_income / 12)%Q). cbn.
    rewrite (proj2 (gt_false _ _) H). cbn.
    eexists; split; [reflexivity|]. cbn [current_dti proposed_dti passes_dti_check].
    split; [apply round_0|]. split; [apply round_0|]. reflexivity.
  - intros proposed. eexists; split; [reflexivity|].
    cbn [current_dti proposed_dti passes_dti_check].
    split; [apply round_0|]. split; [apply round_0|]. reflexivity.
Qed.

End DTIFacts.

(** ** Settings *)

Module SettingsFacts.








(** Spellings [int] and [float] read, and some they refuse. *)
Example conversions_of_text :
  int_of_str " 6_50 " = Ok 650 /\
  int_of_str "-7" = Ok (-7) /\
  int_of_str "6.5" = Raise ValueError /\
  int_of_str EmptyString = Raise ValueError /\
  (exists v, float_of_str "4.3e-1" = Ok v /\ (v == 0.43)%Q) /\
  (exists v, float_of_str " +.5 " = Ok v /\ (v == 0.5)%Q) /\
  (exists v, float_of_str "1_0." = Ok v /\ (v == 10)%Q) /\
  (exists v, float_of_str "-0.5E0" = Ok v /\ (v == -0.5)%Q) /\
  float_of_str "1e-400" = Ok 0%Q /\
  float_of_str "." = Raise ValueError /\
  float_of_str "1__0" = Raise ValueError /\
  float_of_str "4.3 e-1" = Raise ValueError /\
  float_of_str "high" = Raise ValueError.
Proof.
  repeat split; try (vm_compute; reflexivity);
    eexists; split; vm_compute; reflexivity.
Qed.



End SettingsFacts.

(** * Further properties of the tools *)

(** ** Comparisons as propositions *)

Lemma le_false (x y : Q) : (x <=? y)%Q = false <-> (y < x)%Q.
Proof.
  unfold Py.le. rewrite <- not_true_iff_false, Qle_bool_iff.
  split; [apply Qnot_le_lt | apply Qlt_not_le].
Qed.

Lemma div_le (x y c : Q) : (0 < y)%Q -> (x / y <= c)%Q <-> (x <= c * y)%Q.
Proof.
  intros Hy. split; intros H.
  - apply (Qmult_le_r _ _ y Hy) in H.
    rewrite (Qmult_comm (x / y)), Qmult_div_r in H by lra. exact H.
  - apply Qle_shift_div_r; assumption.
Qed.

Lemma div_gt (x y c : Q) : (0 < y)%Q -> (c < x / y)%Q <-> (c * y < x)%Q.
Proof.
  intros Hy. split; intros H.
  - apply Qnot_le_lt. intros Hle. apply (div_le x y c Hy) in Hle. lra.
  - apply Qnot_le_lt. intros Hle. apply (div_le x y c Hy) in Hle. lra.
Qed.

Ltac reflect_cmp :=
  unfold Py.ge, Py.gt, Py.lt in *;
  repeat match goal with
  | H : (_ >=? _)%Z = _ |- _ => rewrite Z.geb_leb in H
  | H : (_ >? _)%Z = _ |- _ => rewrite Z.gtb_ltb in H
  | H : (_ <=? _)%Z = true |- _ => apply Z.leb_le in H
  | H : (_ <=? _)%Z = false |- _ => apply Z.leb_gt in H
  | H : (_ <? _)%Z = true |- _ => apply Z.ltb_lt in H
  | H : (_ <? _)%Z = false |- _ => apply Z.ltb_ge in H
  | H : (_ =? _)%Z = true |- _ => apply Z.eqb_eq in H
  | H : (_ =? _)%Z = false |- _ => apply Z.eqb_neq in H
  | H : negb _ = true |- _ => apply negb_true_iff in H
  | H : negb _ = false |- _ => apply negb_false_iff in H
  | H : Py.le _ _ = true |- _ => apply le_true in H
  | H : Py.le _ _ = false |- _ => apply le_false in H
  | H : Qle_bool _ _ = true |- _ => apply le_true in H
  | H : Qle_bool _ _ = false |- _ => apply le_false in H
  end.

Ltac by_cases := repeat case_match; reflect_cmp; first [lia | exfalso; lra].

(** ** Risk Scorer, further *)

Module RiskScoringMore.
Import RiskScoringTool.

Lemma score_credit_antitone (score score' : Z) :
  score <= score' -> _score_credit score' <= _score_credit score.
Proof. intros H. unfold _score_credit. by_cases. Qed.

Lemma score_dti_monotone (dti dti' : Q) :
  (dti' <= dti)%Q -> _score_dti dti' <= _score_dti dti.
Proof. intros H. unfold _score_dti. by_cases. Qed.

Lemma score_employment_antitone (years years' : Q) :
  (years <= years')%Q -> _score_employment years' <= _score_employment years.
Proof. intros H. unfold _score_employment. by_cases. Qed.

Lemma score_income_monotone (income income' loan_amount loan_amount' : Q) (v v' : Z) :
  (income <= income')%Q -> (loan_amount' <= loan_amount)%Q ->
  _score_income income loan_amount = Ok v ->
  _score_income income' loan_amount' = Ok v' ->
  v' <= v.
Proof.
  intros Hi Hl. unfold _score_income.
  destruct (income >? 0)%Q eqn:E; destruct (income' >? 0)%Q eqn:E';
    try apply gt_true in E; try apply gt_true in E';
    try apply gt_false in E; try apply gt_false in E'; try lra.
  - rewrite !truediv_ok by lra. cbn. intros [= <-] [= <-].
    repeat case_match; reflect_cmp;
      repeat match goal with
      | H : (_ / _ <= _)%Q |- _ => apply div_le in H; [|lra]
      | H : (_ < _ / _)%Q |- _ => apply div_gt in H; [|lra]
      end; first [lia | exfalso; lra].
  - rewrite truediv_ok by lra. cbn. intros [= <-] [= <-]. by_cases.
  - cbn. intros [= <-] [= <-]. lia.
Qed.

(** X1. A profile that is no worse in any input (credit score, DTI ratio,
    income, tenure, bankruptcies, amount asked) never gets a higher sub-score
    or a higher total score. *)
Theorem better_profile_never_scores_higher
    (cfg cfg' : Settings) (credit_score credit_score' : Z)
    (dti_ratio dti_ratio' annual_income annual_income' years_employed years_employed' : Q)
    (bankruptcies bankruptcies' : Z) (loan_amount loan_amount' : Q) :
  credit_score <= credit_score' ->
  (dti_ratio' <= dti_ratio)%Q ->
  (annual_income <= annual_income')%Q ->
  (years_employed <= years_employed')%Q ->
  bankruptcies' <= bankruptcies ->
  (loan_amount' <= loan_amount)%Q ->
  exists r r',
    _run cfg credit_score dti_ratio annual_income years_employed bankruptcies loan_amount
    = Ok r /\
    _run cfg' credit_score' dti_ratio' annual_income' years_employed' bankruptcies'
      loan_amount' = Ok r' /\
    credit_risk (components r') <= credit_risk (components r) /\
    dti_risk (components r') <= dti_risk (components r) /\
    income_risk (components r') <= income_risk (components r) /\
    employment_risk (components r') <= employment_risk (components r) /\
    bankruptcy_penalty (components r') <= bankruptcy_penalty (components r) /\
    total_risk_score r' <= total_risk_score r.
Proof.
  intros Hc Hd Hi Hy Hb Hl.
  destruct (RiskScoringFacts.risk_run_ok cfg credit_score dti_ratio annual_income
              years_employed bankruptcies loan_amount) as (v & Hv & _ & ->).
  destruct (RiskScoringFacts.risk_run_ok cfg' credit_score' dti_ratio' annual_income'
              years_employed' bankruptcies' loan_amount') as (v' & Hv' & _ & ->).
  eexists. eexists. split; [reflexivity|]. split; [reflexivity|]. cbn.
  pose proof (score_credit_antitone _ _ Hc).
  pose proof (score_dti_monotone _ _ Hd).
  pose proof (score_employment_antitone _ _ Hy).
  pose proof (score_income_monotone _ _ _ _ _ _ Hi Hl Hv Hv').
  rewrite !min_spec. lia.
Qed.

Lemma better_profile_never_scores_higher_witness :
  exists r r',
    _run defaults 640 0.40 40000 1 1 30000 = Ok r /\
    _run defaults 720 0.25 90000 6 0 20000 = Ok r' /\
    credit_risk (components r') <= credit_risk (components r) /\
    dti_risk (components r') <= dti_risk (components r) /\
    income_risk (components r') <= income_risk (components r) /\
    employment_risk (components r') <= employment_risk (components r) /\
    bankruptcy_penalty (components r') <= bankruptcy_penalty (components r) /\
    total_risk_score r' <= total_risk_score r.
Proof.
  apply (better_profile_never_scores_higher defaults defaults 640 720
           0.40 0.25 40000 90000 1 6 1 0 30000 20000); first [lia | lra].
Defined.

(** X2. The three labels of a result agree on the top band: the level is
    VERY_HIGH exactly when the likelihood is the lowest one, exactly when
    the total is above 75; such a result is always a denial, a referral is
    always at level HIGH, and a strong approval is never at level HIGH or
    VERY_HIGH. *)
Theorem labels_agree_on_bands :
  forall cfg credit_score dti_ratio annual_income years_employed bankruptcies loan_amount,
    exists r,
      _run cfg credit_score dti_ratio annual_income years_employed bankruptcies loan_amount
      = Ok r /\
      (risk_level r = "VERY_HIGH" <-> 75 < total_risk_score r) /\
      (approval_likelihood r = "Very Low (<25%)" <-> 75 < total_risk_score r) /\
      (risk_level r = "VERY_HIGH" ->
       recommendation r = "DENY - Credit score below minimum" \/
       recommendation r = "DENY - DTI exceeds maximum" \/
       recommendation r = "DENY - High risk") /\
      (recommendation r = "DENY - High risk" -> risk_level r = "VERY_HIGH") /\
      (recommendation r = "REFER TO SENIOR UNDERWRITER" -> risk_level r = "HIGH") /\
      (recommendation r = "APPROVE - Strong application" ->
       (risk_level r = "LOW" \/ risk_level r = "MODERATE") /\
       (approval_likelihood r = "Very High (90%+)" \/
        approval_likelihood r = "High (70-89%)")).
Proof.
  intros cfg cs dti inc yrs b loan.
  destruct (RiskScoringFacts.risk_run_ok cfg cs dti inc yrs b loan) as (v & _ & _ & ->).
  eexists; split; [reflexivity|]. cbn.
  set (total := Py.min _ 100). clearbody total.
  unfold _get_risk_level, _get_approval_likelihood, _get_recommendation.
  repeat split; repeat case_match; reflect_cmp; intros;
    solve [ lia | discriminate | reflexivity | auto ].
Qed.

(** X3. One bankruptcy or more puts the total at 35 or above and rules out
    the level LOW; two or more put it at 50 or above and rule out a strong
    approval, and every count from two on gives the result of two. *)
Theorem bankruptcies_bound_the_outcome
    (cfg : Settings) (credit_score : Z) (dti_ratio annual_income years_employed : Q)
    (bankruptcies : Z) (loan_amount : Q) :
  1 <= bankruptcies ->
  exists r,
    _run cfg credit_score dti_ratio annual_income years_employed bankruptcies loan_amount
    = Ok r /\
    35 <= total_risk_score r /\
    risk_level r <> "LOW" /\
    (2 <= bankruptcies ->
     50 <= total_risk_score r /\
     recommendation r <> "APPROVE - Strong application" /\
     _run cfg credit_score dti_ratio annual_income years_employed 2 loan_amount = Ok r).
Proof.
  intros Hb.
  destruct (RiskScoringFacts.risk_run_ok cfg credit_score dti_ratio annual_income
              years_employed bankruptcies loan_amount) as (v & Hv & Hr & Hrun).
  destruct (RiskScoringFacts.risk_run_ok cfg credit_score dti_ratio annual_income
              years_employed 2 loan_amount) as (v2 & Hv2 & _ & Hrun2).
  rewrite Hv in Hv2. injection Hv2 as <-.
  rewrite Hrun. eexists; split; [reflexivity|]. cbn.
  pose proof (RiskScoringFacts.score_credit_range credit_score).
  pose proof (RiskScoringFacts.score_dti_range dti_ratio).
  pose proof (RiskScoringFacts.score_employment_range years_employed).
  split; [rewrite !min_spec; lia|]. split.
  - unfold _get_risk_level. case_match; [|repeat case_match; discriminate].
    reflect_cmp. rewrite !min_spec in *. lia.
  - intros H2. split; [rewrite !min_spec; lia|]. split.
    + unfold _get_recommendation. repeat case_match; try discriminate.
      reflect_cmp. rewrite !min_spec in *. lia.
    + rewrite Hrun2. cbn.
      replace (Py.min (bankruptcies * 15) 30) with (Py.min (2 * 15) 30)
        by (rewrite !min_spec; lia).
      reflexivity.
Qed.

Lemma bankruptcies_bound_the_outcome_witness :
  exists r,
    _run defaults 760 0.1 100000 10 4 1000 = Ok r /\
    35 <= total_risk_score r /\
    risk_level r <> "LOW" /\
    (2 <= 4 ->
     50 <= total_risk_score r /\
     recommendation r <> "APPROVE - Strong application" /\
     _run defaults 760 0.1 100000 10 2 1000 = Ok r).
Proof.
  apply (bankruptcies_bound_the_outcome defaults 760 0.1 100000 10 4 1000). lia.
Defined.

End RiskScoringMore.

(** ** Credit Evaluator *)

Module CreditCheckMore.
Import CreditCheckTool.

(** The four entries of [RISK_TIERS]. *)
Lemma RISK_TIERS_entries (name : string) (t : tier) :
  RISK_TIERS !! name = Some t ->
  (name = "EXCELLENT" /\ min_score t = 750) \/
  (name = "GOOD" /\ min_score t = 700) \/
  (name = "FAIR" /\ min_score t = 650) \/
  (name = "POOR" /\ min_score t = 620).
Proof.
  unfold RISK_TIERS. intros H.
  destruct (decide (name = "EXCELLENT")) as [->|];
    [injection H as <-; auto | rewrite lookup_insert_ne in H by done].
  destruct (decide (name = "GOOD")) as [->|];
    [injection H as <-; auto | rewrite lookup_insert_ne in H by done].
  destruct (decide (name = "FAIR")) as [->|];
    [injection H as <-; auto | rewrite lookup_insert_ne in H by done].
  destruct (decide (name = "POOR")) as [->|];
    [injection H as <-; auto 6 | rewrite lookup_singleton_ne in H by done].
  discriminate.
Qed.

(** X4. The ladder of [_get_credit_tier] agrees with the [min_score] column
    of [RISK_TIERS]: the tier of a score is the entry with the highest
    minimum the score reaches, and a score that reaches no minimum gets a
    tier outside the table. *)
Theorem credit_tier_is_highest_entry_reached :
  forall score,
    match RISK_TIERS !! _get_credit_tier score with
    | Some t =>
        min_score t <= score /\
        forall name t',
          RISK_TIERS !! name = Some t' -> min_score t' <= score ->
          min_score t' <= min_score t
    | None =>
        forall name t', RISK_TIERS !! name = Some t' -> score < min_score t'
    end.
Proof.
  intros score. unfold _get_credit_tier.
  repeat case_match; reflect_cmp;
    match goal with
    | H : RISK_TIERS !! _ = _ |- _ => vm_compute in H; simplify_eq
    end; cbn;
    try (split; [lia|]); intros name t' Ht';
    destruct (RISK_TIERS_entries name t' Ht') as [[_ ?]|[[_ ?]|[[_ ?]|[_ ?]]]]; lia.
Qed.

(** X5. The Credit Evaluator and the Risk Scorer cut the credit score at the
    same places: two scores get the same tier exactly when they get the
    same credit sub-score. *)
Theorem same_tier_iff_same_credit_risk :
  forall score score',
    _get_credit_tier score = _get_credit_tier score' <->
    RiskScoringTool._score_credit score = RiskScoringTool._score_credit score'.
Proof.
  intros score score'. unfold _get_credit_tier, RiskScoringTool._score_credit.
  repeat case_match; split; intros; solve [reflexivity | discriminate].
Qed.

(** X6. An evaluation lists one factor for the score, one for the
    bankruptcies, and one for the late payments unless their count is 1, 2
    or negative. It has no risk factor exactly for a score of 700 or more
    with no bankruptcy and at most two late payments, and no positive
    factor exactly for a score under 700 with a bankruptcy and a count of
    late payments other than 0. *)
Theorem credit_factors_structure :
  forall cfg credit_score bankruptcies late_payments,
    let e := _run cfg credit_score bankruptcies late_payments in
    (length (risk_factors e) + length (positive_factors e))%nat
    = (if (late_payments >? 2) || (late_payments =? 0) then 3%nat else 2%nat) /\
    (risk_factors e = [] <-> 700 <= credit_score /\ bankruptcies <= 0 /\ late_payments <= 2) /\
    (positive_factors e = [] <->
     credit_score < 700 /\ 0 < bankruptcies /\ late_payments <> 0).
Proof.
  intros cfg cs b l. unfold _run.
  repeat case_match; simplify_eq; cbn; reflect_cmp;
    (split; [first [reflexivity | lia]|]);
    split; split; intros; solve [ lia | discriminate | reflexivity ].
Qed.

Lemma meets_minimum_run (cfg : Settings) (credit_score bankruptcies late_payments : Z) :
  meets_minimum (_run cfg credit_score bankruptcies late_payments)
  = (credit_score >=? MIN_CREDIT_SCORE cfg).
Proof. unfold _run. repeat case_match; reflexivity. Qed.

Lemma credit_tier_run (cfg : Settings) (credit_score bankruptcies late_payments : Z) :
  credit_tier (_run cfg credit_score bankruptcies late_payments)
  = _get_credit_tier credit_score.
Proof. unfold _run. repeat case_match; reflexivity. Qed.

(** X7. The evaluator's [meets_minimum] and the scorer's credit override
    use the same test: the flag is false exactly when the recommendation is
    the credit denial. With the default minimum the flag is true exactly
    when the tier has an entry in [RISK_TIERS], and false exactly for the
    tier SUBPRIME. *)
Theorem meets_minimum_matches_scorer_and_table :
  (forall cfg credit_score bankruptcies late_payments dti_ratio annual_income years_employed
          loan_amount,
     exists r,
       RiskScoringTool._run cfg credit_score dti_ratio annual_income years_employed
         bankruptcies loan_amount = Ok r /\
       (meets_minimum (_run cfg credit_score bankruptcies late_payments) = false <->
        RiskScoringTool.recommendation r = "DENY - Credit score below minimum")) /\
  (forall credit_score bankruptcies late_payments,
     let e := _run defaults credit_score bankruptcies late_payments in
     (meets_minimum e = true <-> is_Some (RISK_TIERS !! credit_tier e)) /\
     (meets_minimum e = false <-> credit_tier e = "SUBPRIME")).
Proof.
  split.
  - intros cfg cs b l dti inc yrs loan.
    destruct (RiskScoringFacts.risk_run_ok cfg cs dti inc yrs b loan) as (v & _ & _ & ->).
    eexists; split; [reflexivity|]. rewrite meets_minimum_run.
    cbn [RiskScoringTool.recommendation].
    unfold RiskScoringTool._get_recommendation. rewrite Z.geb_leb.
    destruct (Z.ltb_spec cs (MIN_CREDIT_SCORE cfg)) as [Hc|Hc].
    + split; [reflexivity|]. intros _. apply Z.leb_gt. lia.
    + split.
      * intros H. apply Z.leb_gt in H. lia.
      * repeat case_match; discriminate.
  - intros cs b l e. subst e. rewrite meets_minimum_run, credit_tier_run.
    change (MIN_CREDIT_SCORE defaults) with 620.
    unfold _get_credit_tier. rewrite !Z.geb_leb.
    destruct (Z.leb_spec 620 cs) as [H|H].
    + split; [split; [intros _|reflexivity]|split; [discriminate|]].
      * repeat case_match; vm_compute; eauto.
      * repeat case_match; reflect_cmp; first [discriminate | lia].
    + split; [split; [discriminate|]|split; [intros _|reflexivity]].
      * repeat case_match; reflect_cmp; try lia.
        intros [t Ht]. vm_compute in Ht. discriminate.
      * repeat case_match; reflect_cmp; first [reflexivity | lia].
Qed.

End CreditCheckMore.

(** ** Rounding keeps the order *)

Lemma round_half_even_monotone (x y : Q) :
  (x <= y)%Q -> round_half_even x <= round_half_even y.
Proof.
  intros Hxy.
  pose proof (Qfloor_resp_le x y Hxy) as Hf.
  pose proof (Qfloor_le x) as Hx1. pose proof (Qlt_floor x) as Hx2.
  pose proof (Qfloor_le y) as Hy1. pose proof (Qlt_floor y) as Hy2.
  rewrite inject_Z_plus in Hx2, Hy2. change (inject_Z 1) with 1%Q in Hx2, Hy2.
  unfold round_half_even. cbv zeta.
  destruct (Z.eq_dec (Qfloor x) (Qfloor y)) as [E|E].
  - rewrite <- E in *. set (f := inject_Z (Qfloor x)) in *.
    destruct (x - f ?= 1 # 2)%Q eqn:Cx; destruct (y - f ?= 1 # 2)%Q eqn:Cy;
      first [apply Qeq_alt in Cx | apply Qlt_alt in Cx | apply Qgt_alt in Cx];
      first [apply Qeq_alt in Cy | apply Qlt_alt in Cy | apply Qgt_alt in Cy];
      try (exfalso; lra); destruct (Z.even (Qfloor x)); lia.
  - destruct (x - inject_Z (Qfloor x) ?= 1 # 2)%Q;
      destruct (y - inject_Z (Qfloor y) ?= 1 # 2)%Q;
      repeat case_match; lia.
Qed.

Lemma round_2_monotone (x y : Q) : (x <= y)%Q -> (round x 2 <= round y 2)%Q.
Proof.
  intros Hxy. unfold round. change (10 ^ 2)%Q with 100%Q.
  assert (H : (x * 100 <= y * 100)%Q) by lra.
  apply round_half_even_monotone in H.
  apply Qmult_le_compat_r; [|discriminate].
  rewrite <- Zle_Qle. exact H.
Qed.

Lemma round_2_nonneg (x : Q) : (0 <= x)%Q -> (0 <= round x 2)%Q.
Proof.
  intros H. apply (round_2_monotone 0 x) in H.
  apply Qle_trans with (round 0 2); [discriminate | exact H].
Qed.


(** ** DTI Calculator, further *)

Module DTIMore.
Import DTICalculatorTool.

(** The dictionary [_run] returns for a positive income. *)
Lemma dti_run_pos (cfg : Settings) (annual_income monthly_debt_payments proposed_loan_payment : Q) :
  (0 < annual_income)%Q ->
  _run cfg annual_income monthly_debt_payments proposed_loan_payment
  = Ok (let monthly_income := (annual_income / 12)%Q in
        let current := (monthly_debt_payments / monthly_income)%Q in
        let proposed := ((monthly_debt_payments + proposed_loan_payment) / monthly_income)%Q in
        {| monthly_income := round monthly_income 2;
           current_monthly_debt := monthly_debt_payments;
           proposed_payment := proposed_loan_payment;
           current_dti := round (current * 100) 2;
           proposed_dti := round (proposed * 100) 2;
           max_allowed_dti := (MAX_DTI_RATIO cfg * 100)%Q;
           passes_dti_check := (proposed <=? MAX_DTI_RATIO cfg)%Q;
           dti_assessment := _assess_dti proposed |}).
Proof.
  intros Hpos.
  assert (Hm : (0 < annual_income / 12)%Q).
  { setoid_replace (annual_income / 12)%Q with (annual_income * (1 # 12))%Q
      using relation Qeq by field. lra. }
  unfold _run. change (truediv annual_income 12) with (Ok (annual_income / 12)%Q). cbn.
  rewrite (proj2 (gt_true _ _) Hm). rewrite !truediv_ok by lra. reflexivity.
Qed.

Lemma monthly_ratio (x annual_income : Q) :
  (0 < annual_income)%Q -> (x / (annual_income / 12) == x * 12 / annual_income)%Q.
Proof. intros H. field. lra. Qed.

(** The dictionary [_run] returns without a positive income. *)
Lemma dti_run_zero (cfg : Settings) (annual_income monthly_debt_payments proposed_loan_payment : Q) :
  (annual_income <= 0)%Q ->
  _run cfg annual_income monthly_debt_payments proposed_loan_payment
  = Ok {| monthly_income := round (annual_income / 12) 2;
          current_monthly_debt := monthly_debt_payments;
          proposed_payment := proposed_loan_payment;
          current_dti := round (0 * 100) 2;
          proposed_dti := round (0 * 100) 2;
          max_allowed_dti := (MAX_DTI_RATIO cfg * 100)%Q;
          passes_dti_check := (0 <=? MAX_DTI_RATIO cfg)%Q;
          dti_assessment := _assess_dti 0 |}.
Proof.
  intros Hneg.
  assert (Hm : (annual_income / 12 <= 0)%Q).
  { setoid_replace (annual_income / 12)%Q with (annual_income * (1 # 12))%Q
      using relation Qeq by field. lra. }
  unfold _run. change (truediv annual_income 12) with (Ok (annual_income / 12)%Q). cbn.
  rewrite (proj2 (gt_false _ _) Hm). reflexivity.
Qed.

Lemma div_monotone (x y m : Q) : (0 < m)%Q -> (x <= y)%Q -> (x / m <= y / m)%Q.
Proof.
  intros Hm Hxy. apply Qmult_le_compat_r; [assumption|].
  apply Qlt_le_weak, Qinv_lt_0_compat. assumption.
Qed.

(** X8. The calculator follows the order of the obligations. For the same
    income, monthly debts and a proposed payment that are both no larger
    give reported ratios that are no larger, and pass the check whenever
    the larger obligations pass it. The reported current ratio is not
    negative for debts that are not, and is not above the reported proposed
    ratio for a proposed payment that is not negative. *)
Theorem dti_follows_the_obligations
    (cfg : Settings) (annual_income monthly_debt_payments proposed_loan_payment
     monthly_debt_payments' proposed_loan_payment' : Q) :
  (monthly_debt_payments <= monthly_debt_payments')%Q ->
  (proposed_loan_payment <= proposed_loan_payment')%Q ->
  exists r r',
    _run cfg annual_income monthly_debt_payments proposed_loan_payment = Ok r /\
    _run cfg annual_income monthly_debt_payments' proposed_loan_payment' = Ok r' /\
    (current_dti r <= current_dti r')%Q /\
    (proposed_dti r <= proposed_dti r')%Q /\
    (passes_dti_check r' = true -> passes_dti_check r = true) /\
    ((0 <= monthly_debt_payments)%Q -> (0 <= current_dti r)%Q) /\
    ((0 <= proposed_loan_payment)%Q -> (current_dti r <= proposed_dti r)%Q).
Proof.
  intros Hd Hp. destruct (Qlt_le_dec 0 annual_income) as [Hpos|Hneg].
  - assert (Hm : (0 < annual_income / 12)%Q).
    { setoid_replace (annual_income / 12)%Q with (annual_income * (1 # 12))%Q
        using relation Qeq by field. lra. }
    rewrite !dti_run_pos by assumption. eexists. eexists.
    split; [reflexivity|]. split; [reflexivity|].
    cbn [passes_dti_check current_dti proposed_dti]. cbv zeta.
    set (m := (annual_income / 12)%Q) in *.
    assert (H1 : (monthly_debt_payments / m <= monthly_debt_payments' / m)%Q)
      by (apply div_monotone; assumption).
    assert (H2 : ((monthly_debt_payments + proposed_loan_payment) / m
                  <= (monthly_debt_payments' + proposed_loan_payment') / m)%Q)
      by (apply div_monotone; [assumption|lra]).
    split; [apply round_2_monotone; lra|].
    split; [apply round_2_monotone; lra|].
    split; [rewrite !le_true; lra|].
    split.
    + intros H0. apply round_2_nonneg.
      assert (0 / m <= monthly_debt_payments / m)%Q by (apply div_monotone; assumption).
      assert (0 / m == 0)%Q by (field; lra).
      lra.
    + intros H0. apply round_2_monotone.
      assert (monthly_debt_payments / m
              <= (monthly_debt_payments + proposed_loan_payment) / m)%Q
        by (apply div_monotone; [assumption|lra]).
      lra.
  - rewrite !dti_run_zero by assumption. eexists. eexists.
    split; [reflexivity|]. split; [reflexivity|].
    cbn [passes_dti_check current_dti proposed_dti].
    split; [apply Qle_refl|]. split; [apply Qle_refl|].
    split; [intros Hpass; exact Hpass|].
    split; intros _; [discriminate | apply Qle_refl].
Qed.

Lemma dti_follows_the_obligations_witness :
  exists r r',
    _run defaults 60000 500 300 = Ok r /\
    _run defaults 60000 2000 300 = Ok r' /\
    (current_dti r <= current_dti r')%Q /\
    (proposed_dti r <= proposed_dti r')%Q /\
    (passes_dti_check r' = true -> passes_dti_check r = true) /\
    ((0 <= 500)%Q -> (0 <= current_dti r)%Q) /\
    ((0 <= 300)%Q -> (current_dti r <= proposed_dti r)%Q).
Proof.
  apply (dti_follows_the_obligations defaults 60000 500 300 2000 300); discriminate.
Defined.

(** The verdict and the label of every result are those of one ratio: 0
    without a positive monthly income, the proposed ratio otherwise. *)
Lemma dti_run_ratio (cfg : Settings) (annual_income monthly_debt_payments proposed_loan_payment : Q) :
  exists r ratio,
    _run cfg annual_income monthly_debt_payments proposed_loan_payment = Ok r /\
    passes_dti_check r = (ratio <=? MAX_DTI_RATIO cfg)%Q /\
    dti_assessment r = _assess_dti ratio /\
    ((0 < annual_income)%Q ->
     ratio = ((monthly_debt_payments + proposed_loan_payment) / (annual_income / 12))%Q).
Proof.
  destruct (Qlt_le_dec 0 annual_income) as [Hpos|Hneg].
  - rewrite dti_run_pos by assumption. eexists. eexists.
    split; [reflexivity|]. cbn. repeat split.
  - unfold _run. change (truediv annual_income 12) with (Ok (annual_income / 12)%Q). cbn.
    assert (Hm : (annual_income / 12 <= 0)%Q).
    { setoid_replace (annual_income / 12)%Q with (annual_income * (1 # 12))%Q
        using relation Qeq by field. lra. }
    rewrite (proj2 (gt_false _ _) Hm). cbn. eexists. exists 0%Q.
    split; [reflexivity|]. cbn. repeat split. intros H. lra.
Qed.

Lemma dti_run_nonpos (cfg : Settings)
    (annual_income monthly_debt_payments proposed_loan_payment : Q) :
  (annual_income <= 0)%Q ->
  exists r,
    _run cfg annual_income monthly_debt_payments proposed_loan_payment = Ok r /\
    (current_dti r == 0)%Q /\
    (proposed_dti r == 0)%Q.
Proof.
  intros Hneg.
  assert (Hm : (annual_income / 12 <= 0)%Q).
  { setoid_replace (annual_income / 12)%Q with (annual_income * (1 # 12))%Q
      using relation Qeq by field. lra. }
  unfold _run. change (truediv annual_income 12) with (Ok (annual_income / 12)%Q). cbn.
  rewrite (proj2 (gt_false _ _) Hm). cbn.
  eexists; split; [reflexivity|]. cbn [current_dti proposed_dti].
  split; apply DTIFacts.round_0.
Qed.

(** X9. While the configured maximum is the 0.43 that [_assess_dti] has
    built in, the check passes exactly when the label is not the "Too high"
    one. *)
Theorem assessment_agrees_with_check
    (cfg : Settings) (annual_income monthly_debt_payments proposed_loan_payment : Q) :
  (MAX_DTI_RATIO cfg == 0.43)%Q ->
  exists r,
    _run cfg annual_income monthly_debt_payments proposed_loan_payment = Ok r /\
    (passes_dti_check r = true <->
     dti_assessment r <> "Too high - exceeds maximum threshold").
Proof.
  intros Hmax.
  destruct (dti_run_ratio cfg annual_income monthly_debt_payments proposed_loan_payment)
    as (r & ratio & Hr & Hp & Ha & _).
  exists r. split; [exact Hr|]. rewrite Hp, Ha. unfold _assess_dti.
  rewrite le_true, Hmax.
  repeat case_match; reflect_cmp; split; intros; first [discriminate | lra | congruence].
Qed.

Lemma assessment_agrees_with_check_witness :
  exists r,
    _run defaults 60000 500 300 = Ok r /\
    (passes_dti_check r = true <->
     dti_assessment r <> "Too high - exceeds maximum threshold").
Proof.
  apply (assessment_agrees_with_check defaults 60000 500 300). reflexivity.
Defined.

(** X10. Fed the ratio the calculator works with, the Risk Scorer agrees
    with it: for an applicant at or above the minimum credit score the
    scorer's DTI denial is issued exactly when the calculator's check fails,
    the DTI sub-score is 25 exactly when the label is the "Too high" one,
    and 5 exactly when it is the "Excellent" one. *)
Theorem scorer_agrees_with_dti_calculator
    (cfg : Settings) (credit_score : Z)
    (annual_income monthly_debt_payments proposed_loan_payment years_employed : Q)
    (bankruptcies : Z) (loan_amount : Q) :
  (0 < annual_income)%Q ->
  MIN_CREDIT_SCORE cfg <= credit_score ->
  let ratio := ((monthly_debt_payments + proposed_loan_payment) / (annual_income / 12))%Q in
  exists d s,
    _run cfg annual_income monthly_debt_payments proposed_loan_payment = Ok d /\
    RiskScoringTool._run cfg credit_score ratio annual_income years_employed bankruptcies
      loan_amount = Ok s /\
    (passes_dti_check d = false <->
     RiskScoringTool.recommendation s = "DENY - DTI exceeds maximum") /\
    (RiskScoringTool.dti_risk (RiskScoringTool.components s) = 25 <->
     dti_assessment d = "Too high - exceeds maximum threshold") /\
    (RiskScoringTool.dti_risk (RiskScoringTool.components s) = 5 <->
     dti_assessment d = "Excellent - very low debt burden").
Proof.
  intros Hpos Hcs ratio. rewrite dti_run_pos by assumption. cbv zeta. fold ratio.
  destruct (RiskScoringFacts.risk_run_ok cfg credit_score ratio annual_income
              years_employed bankruptcies loan_amount) as (v & _ & _ & ->).
  eexists. eexists. split; [reflexivity|]. split; [reflexivity|].
  cbn [passes_dti_check dti_assessment RiskScoringTool.recommendation
       RiskScoringTool.dti_risk RiskScoringTool.components].
  clearbody ratio. split; [|split].
  - unfold RiskScoringTool._get_recommendation.
    destruct (Z.ltb_spec credit_score (MIN_CREDIT_SCORE cfg)); [lia|].
    rewrite le_false. destruct (ratio >? MAX_DTI_RATIO cfg)%Q eqn:E.
    + apply gt_true in E. split; [reflexivity|]. intros _. exact E.
    + apply gt_false in E. split; [intros; lra|].
      repeat case_match; discriminate.
  - unfold RiskScoringTool._score_dti, _assess_dti.
    repeat case_match; reflect_cmp; split; intros;
      first [discriminate | reflexivity | exfalso; lra].
  - unfold RiskScoringTool._score_dti, _assess_dti.
    repeat case_match; reflect_cmp; split; intros;
      first [discriminate | reflexivity | exfalso; lra].
Qed.

Lemma scorer_agrees_with_dti_calculator_witness :
  let ratio := ((500 + 300) / (60000 / 12))%Q in
  exists d s,
    _run defaults 60000 500 300 = Ok d /\
    RiskScoringTool._run defaults 700 ratio 60000 3 0 20000 = Ok s /\
    (passes_dti_check d = false <->
     RiskScoringTool.recommendation s = "DENY - DTI exceeds maximum") /\
    (RiskScoringTool.dti_risk (RiskScoringTool.components s) = 25 <->
     dti_assessment d = "Too high - exceeds maximum threshold") /\
    (RiskScoringTool.dti_risk (RiskScoringTool.components s) = 5 <->
     dti_assessment d = "Excellent - very low debt burden").
Proof.
  apply (scorer_agrees_with_dti_calculator defaults 700 60000 500 300 3 0 20000);
    [reflexivity | cbn; lia].
Defined.

End DTIMore.

(** ** Loan Pricer, further *)

Module LoanPricingMore.
Import LoanPricingTool LoanPricingSpec.

Lemma max_monotone (a a' c : Q) : (a <= a')%Q -> (Py.max a c <= Py.max a' c)%Q.
Proof. intros H. rewrite !max_spec. apply Q.max_le_compat_r. exact H. Qed.

Lemma final_rate_monotone (cfg : Settings) (tier tier' level level' : string) :
  (tier_adjustment tier <= tier_adjustment tier')%Q ->
  (risk_adjustment level <= risk_adjustment level')%Q ->
  (final_rate cfg tier level <= final_rate cfg tier' level')%Q.
Proof. intros Ht Hl. unfold final_rate. apply max_monotone. lra. Qed.

(** The entries of the two tables bound every adjustment. *)
Lemma tier_adjustment_range (credit_tier : string) :
  (-1.5 <= tier_adjustment credit_tier <= 2.5)%Q.
Proof.
  unfold tier_adjustment. destruct (RISK_TIERS !! credit_tier) as [t|] eqn:E.
  - destruct (CreditCheckMore.RISK_TIERS_entries _ _ E) as [[-> _]|[[-> _]|[[-> _]|[-> _]]]];
      vm_compute in E; injection E as <-; split; discriminate.
  - split; discriminate.
Qed.

Lemma risk_adjustment_range (risk_level : string) :
  (-0.5 <= risk_adjustment risk_level <= 3.0)%Q.
Proof.
  unfold risk_adjustment, risk_adjustments.
  destruct (decide (risk_level = "LOW")) as [->|]; [split; discriminate|].
  destruct (decide (risk_level = "MODERATE")) as [->|]; [split; discriminate|].
  destruct (decide (risk_level = "HIGH")) as [->|]; [split; discriminate|].
  destruct (decide (risk_level = "VERY_HIGH")) as [->|]; [split; discriminate|].
  rewrite !lookup_insert_ne, lookup_singleton_ne by done. split; discriminate.
Qed.

(** X11. Whatever the base rate, the rate never falls from a better tier to
    a worse one among the four of the table, nor from a lower risk level to
    a higher one. *)
Theorem rate_follows_tier_and_level_order :
  forall cfg,
    (forall level,
       (final_rate cfg "EXCELLENT" level <= final_rate cfg "GOOD" level)%Q /\
       (final_rate cfg "GOOD" level <= final_rate cfg "FAIR" level)%Q /\
       (final_rate cfg "FAIR" level <= final_rate cfg "POOR" level)%Q) /\
    (forall tier,
       (final_rate cfg tier "LOW" <= final_rate cfg tier "MODERATE")%Q /\
       (final_rate cfg tier "MODERATE" <= final_rate cfg tier "HIGH")%Q /\
       (final_rate cfg tier "HIGH" <= final_rate cfg tier "VERY_HIGH")%Q).
Proof.
  intros cfg. split; intros s; repeat split;
    apply final_rate_monotone; first [apply Qle_refl | discriminate].
Qed.

(** X12. With the default base rate of 7.5 the floor of 5.0 never applies:
    for every tier and level string the rate is the plain sum and lies
    between 5.5 and 13. *)
Theorem default_rate_is_never_floored :
  forall credit_tier risk_level,
    (final_rate defaults credit_tier risk_level
     == 7.5 + tier_adjustment credit_tier + risk_adjustment risk_level)%Q /\
    (5.5 <= final_rate defaults credit_tier risk_level <= 13)%Q.
Proof.
  intros credit_tier risk_level.
  pose proof (tier_adjustment_range credit_tier) as Ht.
  pose proof (risk_adjustment_range risk_level) as Hl.
  unfold final_rate. change (BASE_INTEREST_RATE defaults) with 7.5%Q.
  unfold Py.max.
  rewrite (proj2 (gt_false 5.0 (7.5 + tier_adjustment credit_tier
                                + risk_adjustment risk_level)))
    by lra.
  split; [reflexivity|]. lra.
Qed.

Lemma growth_succ (g : Q) (k : nat) :
  (g ^ Z.of_nat (S k) == g ^ Z.of_nat k * g)%Q.
Proof.
  rewrite Nat2Z.inj_succ. unfold Z.succ. rewrite Qpower_plus' by lia.
  now rewrite Qpower_1_r.
Qed.

Lemma growth_gt_1 (r : Q) (n : Z) : (0 < r)%Q -> 0 < n -> (1 < (1 + r) ^ n)%Q.
Proof. intros Hr Hn. apply Qpower_1_lt; [lra | assumption]. Qed.

(** Compound growth stays below [n] times the last month's simple
    interest. *)
Lemma growth_below_simple_interest (r : Q) (k : nat) :
  (0 < r)%Q ->
  ((1 + r) ^ Z.of_nat (S k) - 1
   < inject_Z (Z.of_nat (S k)) * r * (1 + r) ^ Z.of_nat (S k))%Q.
Proof.
  intros Hr. induction k as [|k IH].
  - change ((1 + r) ^ Z.of_nat 1)%Q with (1 + r)%Q.
    change (inject_Z (Z.of_nat 1)) with 1%Q. nra.
  - rewrite (growth_succ (1 + r) (S k)).
    assert (HG : (1 < (1 + r) ^ Z.of_nat (S k))%Q) by (apply growth_gt_1; [assumption|lia]).
    rewrite (Nat2Z.inj_succ (S k)). unfold Z.succ. rewrite inject_Z_plus.
    change (inject_Z 1) with 1%Q.
    set (G := ((1 + r) ^ Z.of_nat (S k))%Q) in *.
    assert (HK : (0 <= inject_Z (Z.of_nat (S k)))%Q).
    { change 0%Q with (inject_Z 0). rewrite <- Zle_Qle. lia. }
    set (K := inject_Z (Z.of_nat (S k))) in *.
    nra.
Qed.

Lemma growth_below_simple_interest_Z (r : Q) (n : Z) :
  (0 < r)%Q -> 0 < n ->
  ((1 + r) ^ n - 1 < inject_Z n * r * (1 + r) ^ n)%Q.
Proof.
  intros Hr Hn.
  pose proof (growth_below_simple_interest r (Nat.pred (Z.to_nat n)) Hr) as H.
  replace (Z.of_nat (S (Nat.pred (Z.to_nat n)))) with n in H by lia.
  exact H.
Qed.

(** The payment of the amortization branch, cleared of its division. *)
Lemma payment_equation (loan_amount r g : Q) :
  ~ (g - 1 == 0)%Q ->
  (loan_amount * (r * g) / (g - 1) * (g - 1) == loan_amount * r * g)%Q.
Proof. intros H. field. assumption. Qed.

(** X14. For a positive loan over a positive term the pricer returns an
    offer or raises [OverflowError], and no amount an offer reports is
    negative: not the payment, the first month's interest, the repayment,
    nor the total interest. *)
Theorem positive_loan_reports_no_negative_amount
    (cfg : Settings) (loan_amount : Q) (term_months : Z) (credit_tier risk_level : string) :
  (0 < loan_amount)%Q -> 0 < term_months ->
  (exists o,
     _run cfg loan_amount term_months credit_tier risk_level = Ok o /\
     (0 <= Out.monthly_payment o)%Q /\
     (0 <= Out.first_payment_interest o)%Q /\
     (0 <= Out.total_repayment o)%Q /\
     (0 <= Out.total_interest o)%Q) \/
  _run cfg loan_amount term_months credit_tier risk_level = Raise OverflowError.
Proof.
  intros HL Hn.
  pose proof (LoanPricingFacts.monthly_rate_pos cfg credit_tier risk_level) as Hr.
  destruct (LoanPricingFacts.pricing_run_outcome cfg loan_amount term_months credit_tier
              risk_level ltac:(lia)) as [E|(g & _ & _ & Hne & Hpos & _ & E)];
    [right; exact E|].
  left. destruct (Hpos Hn) as [Hg Hgeq]. rewrite E. eexists. split; [reflexivity|].
  unfold offer. cbv zeta.
  cbn [Out.monthly_payment Out.first_payment_interest Out.total_repayment
       Out.total_interest].
  set (r := (final_rate cfg credit_tier risk_level / 100 / 12)%Q) in *.
  set (payment := (loan_amount * (r * g) / (g - 1))%Q).
  pose proof (payment_equation loan_amount r g Hne) as Hp. fold payment in Hp.
  pose proof (growth_below_simple_interest_Z r term_months Hr Hn) as Hb.
  rewrite <- Hgeq in Hb.
  assert (HN : (0 < inject_Z term_months)%Q).
  { change 0%Q with (inject_Z 0). rewrite <- Zlt_Qlt. lia. }
  set (N := inject_Z term_months) in *.
  assert (HLr : (0 < loan_amount * r)%Q) by (apply Qmult_lt_0_compat; assumption).
  assert (H1 : (0 < payment)%Q).
  { apply Qnot_le_lt. intros Hle.
    assert (payment * (g - 1) <= 0 * (g - 1))%Q
      by (apply Qmult_le_compat_r; lra).
    nra. }
  assert (H2 : (loan_amount < payment * N)%Q).
  { apply Qnot_le_lt. intros Hle.
    assert (H : (payment * N * (g - 1) <= loan_amount * (g - 1))%Q)
      by (apply Qmult_le_compat_r; lra).
    assert (loan_amount * (g - 1) < loan_amount * (N * r * g))%Q
      by (apply Qmult_lt_l; assumption).
    setoid_replace (payment * N * (g - 1))%Q with (payment * (g - 1) * N)%Q
      using relation Qeq in H by ring.
    rewrite Hp in H. nra. }
  split; [apply round_2_nonneg; lra|].
  split; [apply round_2_nonneg; lra|].
  split; apply round_2_nonneg; nra.
Qed.

Lemma positive_loan_reports_no_negative_amount_witness :
  (exists o,
     _run defaults 10000 36 "GOOD" "LOW" = Ok o /\
     (0 <= Out.monthly_payment o)%Q /\
     (0 <= Out.first_payment_interest o)%Q /\
     (0 <= Out.total_repayment o)%Q /\
     (0 <= Out.total_interest o)%Q) \/
  _run defaults 10000 36 "GOOD" "LOW" = Raise OverflowError.
Proof.
  apply (positive_loan_reports_no_negative_amount defaults 10000 36 "GOOD" "LOW");
    [reflexivity | lia].
Defined.








End LoanPricingMore.

(** ** The application model *)

Module LoanApplicationMore.
Import LoanApplication.

Lemma round_2_proper (x y : Q) : (x == y)%Q -> (round x 2 == round y 2)%Q.
Proof.
  intros H. apply Qle_antisym; apply round_2_monotone; rewrite H; apply Qle_refl.
Qed.

Lemma or_zero (v : Q) : (or_ (Some v) 0 == v)%Q.
Proof.
  unfold or_. destruct (Qeq_bool v 0) eqn:E; [|reflexivity].
  apply Qeq_bool_iff in E. now rewrite E.
Qed.

(** X18. When the monthly income passes the method's test
    [monthly_income > 0], [calculate_dti] stores the quotient of the
    monthly debts by the monthly income in the application and returns it,
    or 0 when the quotient is 0; a second call stores and returns the same;
    the DTI Calculator reports the returned value, in percent and rounded,
    as its [current_dti]; and the stored ratio is not negative for debts
    that are not. *)
Theorem calculate_dti_stores_the_ratio (cfg : Settings) (self : t) (proposed_loan_payment : Q) :
  (annual_income (financials self) / 12 >? 0)%Q = true ->
  exists ratio self' r,
    truediv (monthly_debt_payments (financials self)) (annual_income (financials self) / 12)
    = Ok ratio /\
    calculate_dti self = Ok (or_ (Some ratio) 0, self') /\
    self' = {| financials := financials self; debt_to_income_ratio := Some ratio |} /\
    calculate_dti self' = Ok (or_ (Some ratio) 0, self') /\
    DTICalculatorTool._run cfg (annual_income (financials self))
      (monthly_debt_payments (financials self)) proposed_loan_payment = Ok r /\
    (DTICalculatorTool.current_dti r == round (or_ (Some ratio) 0 * 100) 2)%Q /\
    ((0 <= monthly_debt_payments (financials self))%Q -> (0 <= ratio)%Q).
Proof.
  intros Htest. pose proof (proj1 (gt_true _ _) Htest) as Hm.
  assert (Hpos : (0 < annual_income (financials self))%Q).
  { setoid_replace (annual_income (financials self) / 12)%Q
      with (annual_income (financials self) * (1 # 12))%Q using relation Qeq in Hm by field.
    lra. }
  assert (Hcall : forall d,
            calculate_dti {| financials := financials self; debt_to_income_ratio := d |}
            = Ok (or_ (Some (monthly_debt_payments (financials self)
                             / (annual_income (financials self) / 12))%Q) 0,
                  {| financials := financials self;
                     debt_to_income_ratio :=
                       Some (monthly_debt_payments (financials self)
                             / (annual_income (financials self) / 12))%Q |})).
  { intros d. unfold calculate_dti. cbn [financials].
    change (truediv (annual_income (financials self)) 12)
      with (Ok (annual_income (financials self) / 12)%Q). cbn.
    rewrite Htest. rewrite truediv_ok by lra. reflexivity. }
  eexists. eexists. eexists.
  split; [apply truediv_ok; lra|].
  split; [destruct self as [f d]; apply (Hcall d)|].
  split; [reflexivity|].
  split; [apply Hcall|].
  split; [apply DTIMore.dti_run_pos; assumption|].
  split.
  - cbn [DTICalculatorTool.current_dti]. apply round_2_proper.
    now rewrite or_zero.
  - intros H0. apply Qle_shift_div_l; [assumption|]. lra.
Qed.

Lemma calculate_dti_stores_the_ratio_witness :
  let self :=
    {| financials :=
         {| credit_score := 700; annual_income := 60000; monthly_debt_payments := 500;
            bank_account_balance := 2500; existing_loans := 1; bankruptcies := 0;
            late_payments_last_year := 0 |};
       debt_to_income_ratio := None |} in
  exists ratio self' r,
    truediv (monthly_debt_payments (financials self)) (annual_income (financials self) / 12)
    = Ok ratio /\
    calculate_dti self = Ok (or_ (Some ratio) 0, self') /\
    self' = {| financials := financials self; debt_to_income_ratio := Some ratio |} /\
    calculate_dti self' = Ok (or_ (Some ratio) 0, self') /\
    DTICalculatorTool._run defaults (annual_income (financials self))
      (monthly_debt_payments (financials self)) 300 = Ok r /\
    (DTICalculatorTool.current_dti r == round (or_ (Some ratio) 0 * 100) 2)%Q /\
    ((0 <= monthly_debt_payments (financials self))%Q -> (0 <= ratio)%Q).
Proof.
  intros self. apply (calculate_dti_stores_the_ratio defaults self 300). reflexivity.
Defined.

(** X19. Without a positive annual income [calculate_dti] leaves the
    application as it is and returns the ratio stored in it, or 0 when none
    or a zero is stored: a ratio stored while there was an income is
    returned again, where the DTI Calculator reports 0. *)
Theorem calculate_dti_without_income (cfg : Settings) (self : t) (proposed_loan_payment : Q) :
  (annual_income (financials self) <= 0)%Q ->
  calculate_dti self = Ok (or_ (debt_to_income_ratio self) 0, self) /\
  (debt_to_income_ratio self = None ->
   calculate_dti self = Ok (0%Q, self)) /\
  (forall ratio, debt_to_income_ratio self = Some ratio -> ~ (ratio == 0)%Q ->
     calculate_dti self = Ok (ratio, self)) /\
  exists r,
    DTICalculatorTool._run cfg (annual_income (financials self))
      (monthly_debt_payments (financials self)) proposed_loan_payment = Ok r /\
    (DTICalculatorTool.current_dti r == 0)%Q.
Proof.
  intros Hneg.
  assert (Hm : (annual_income (financials self) / 12 <= 0)%Q).
  { setoid_replace (annual_income (financials self) / 12)%Q
      with (annual_income (financials self) * (1 # 12))%Q using relation Qeq by field.
    lra. }
  assert (Hcall : calculate_dti self = Ok (or_ (debt_to_income_ratio self) 0, self)).
  { unfold calculate_dti.
    change (truediv (annual_income (financials self)) 12)
      with (Ok (annual_income (financials self) / 12)%Q). cbn.
    rewrite (proj2 (gt_false _ _) Hm). reflexivity. }
  split; [exact Hcall|]. split; [|split].
  - intros E. rewrite Hcall, E. reflexivity.
  - intros ratio E Hnz. rewrite Hcall, E. unfold or_.
    destruct (Qeq_bool ratio 0) eqn:Eb; [|reflexivity].
    apply Qeq_bool_iff in Eb. contradiction.
  - destruct (DTIMore.dti_run_nonpos cfg (annual_income (financials self))
                (monthly_debt_payments (financials self)) proposed_loan_payment Hneg)
      as (r & Hr & Hc & _).
    exists r. split; assumption.
Qed.

Lemma calculate_dti_without_income_witness :
  let self :=
    {| financials :=
         {| credit_score := 700; annual_income := 0; monthly_debt_payments := 500;
            bank_account_balance := 2500; existing_loans := 1; bankruptcies := 0;
            late_payments_last_year := 0 |};
       debt_to_income_ratio := Some 0.1%Q |} in
  calculate_dti self = Ok (or_ (debt_to_income_ratio self) 0, self) /\
  (debt_to_income_ratio self = None ->
   calculate_dti self = Ok (0%Q, self)) /\
  (forall ratio, debt_to_income_ratio self = Some ratio -> ~ (ratio == 0)%Q ->
     calculate_dti self = Ok (ratio, self)) /\
  exists r,
    DTICalculatorTool._run defaults (annual_income (financials self))
      (monthly_debt_payments (financials self)) 300 = Ok r /\
    (DTICalculatorTool.current_dti r == 0)%Q.
Proof.
  intros self. apply (calculate_dti_without_income defaults self 300). discriminate.
Defined.

End LoanApplicationMore.

(** ** From the evaluator and the scorer to the pricer *)

Module PipelineMore.
Import LoanPricingTool LoanPricingSpec.

(** X20. The labels the first stages emit are the ones the pricer looks up:
    the level of every Risk Scorer result is a key of [risk_adjustments],
    so its adjustment is one of the four of the table and never the 0 of
    an unknown level; the tier of the Credit Evaluator is a key of
    [RISK_TIERS] exactly for a score of 620 or more. *)
Theorem emitted_labels_are_priced :
  (forall cfg credit_score dti_ratio annual_income years_employed bankruptcies loan_amount,
     exists r,
       RiskScoringTool._run cfg credit_score dti_ratio annual_income years_employed
         bankruptcies loan_amount = Ok r /\
       RiskScoringTool.risk_level r ∈ known_levels /\
       is_Some (risk_adjustments !! RiskScoringTool.risk_level r) /\
       ~ (risk_adjustment (RiskScoringTool.risk_level r) == 0)%Q) /\
  (forall score,
     CreditCheckTool._get_credit_tier score ∈ known_tiers <-> 620 <= score).
Proof.
  split.
  - intros cfg cs dti inc yrs b loan.
    destruct (RiskScoringFacts.risk_run_ok cfg cs dti inc yrs b loan) as (v & _ & _ & ->).
    eexists; split; [reflexivity|]. cbn [RiskScoringTool.risk_level].
    unfold RiskScoringTool._get_risk_level, known_levels.
    repeat case_match; (split; [rewrite !elem_of_cons; solve [auto 10]|]);
      (split; [vm_compute; eauto|]);
      intros Hzero; vm_compute in Hzero; discriminate.
  - intros score. unfold CreditCheckTool._get_credit_tier, known_tiers.
    repeat case_match; reflect_cmp; rewrite !elem_of_cons, elem_of_nil;
      split; intros Hin;
      first [lia | solve [auto 10] | exfalso; intuition (discriminate || lia)].
Qed.

(** X21. Pricing follows the earlier stages in the expected direction on the
    priced range: a higher total score never lowers the rate, and from a
    credit score of 620 on a higher credit score never raises it. *)
Theorem rate_follows_scores :
  forall cfg,
    (forall tier total total',
       total <= total' ->
       (final_rate cfg tier (RiskScoringTool._get_risk_level total)
        <= final_rate cfg tier (RiskScoringTool._get_risk_level total'))%Q) /\
    (forall level score score',
       620 <= score <= score' ->
       (final_rate cfg (CreditCheckTool._get_credit_tier score') level
        <= final_rate cfg (CreditCheckTool._get_credit_tier score) level)%Q).
Proof.
  intros cfg. split.
  - intros tier total total' Hle. apply LoanPricingMore.final_rate_monotone;
      [apply Qle_refl|].
    unfold RiskScoringTool._get_risk_level.
    repeat case_match; reflect_cmp; first [discriminate | apply Qle_refl | lia].
  - intros level score score' Hle. apply LoanPricingMore.final_rate_monotone;
      [|apply Qle_refl].
    unfold CreditCheckTool._get_credit_tier.
    repeat case_match; reflect_cmp; first [discriminate | apply Qle_refl | lia].
Qed.

End PipelineMore.
